(** * The Janus relay bridge of OctoPrint-Obico ([octoprint_obico/janus.py])

    A shallow embedding of [JanusConn]: the supervisor thread that provisions
    and launches the Janus gateway ([run_janus_forever]), the websocket link
    to the gateway ([start_janus_ws], [on_close], [on_message],
    [pass_to_janus], [shutdown]) and the router of inbound gateway messages
    ([process_janus_msg]).

    The object's fields are a record, every call that leaves [janus.py]
    (logger, sentry, alert queue, the plugin's sinks, [Popen], the websocket
    client) is recorded as an event of a trace, and the threads are
    interleaved by a schedule of atomic actions.  The worlds of that
    schedule begin with the supervisor thread about to run; [start] itself,
    with [wait_for_janus], is a thread of its own in the last part of the
    definitions ([start_step], [sys_exec]).

    Three parts of the definitions look closer at what those steps take in
    one go: the gateway while it is still running, writing into a pipe that
    the drain loop reads ([running], [pipe_step]); the router when one of the
    plugin's sinks raises ([RaisingSinks.process_janus_msg]); and [on_close]
    overtaken by another thread between its test of [shutting_down] and its
    reconnection ([threads], [thread_step]). *)

From Stdlib Require Import Bool Arith ZArith NArith List String Ascii Lia.
Import ListNotations.
Set Warnings "-register-all".
Local Open Scope string_scope.
Local Open Scope list_scope.

(** ** Python values *)

(** The values [json.loads] can return.  A float is kept as the decimal
    literal it was read from, [(-1)^neg * m * 10^e]; Python holds the
    binary64 number nearest to it. *)
Inductive pyval : Type :=
| PyNone
| PyBool (b : bool)
| PyInt (z : Z)
| PyFloat (neg : bool) (m : N) (e : Z)
| PyNaN
| PyInf (neg : bool)
| PyStr (s : string)
| PyList (l : list pyval)
| PyDict (d : list (string * pyval)).

(** The nearest binary64 of [m * 10^e] is zero exactly when the literal is at
    most [2^-1075], half of the least subnormal (ties go to the even
    neighbour, which is zero). *)
Definition float_is_zero (m : N) (e : Z) : bool :=
  if (m =? 0)%N then true
  else if (0 <=? e)%Z then false
  else (Z.of_N m * 2 ^ 1075 <=? 10 ^ (- e))%Z.

(** [bool(v)]: what [if v:] tests. *)
Definition truthy (v : pyval) : bool :=
  match v with
  | PyNone => false
  | PyBool b => b
  | PyInt z => negb (z =? 0)%Z
  | PyFloat _ m e => negb (float_is_zero m e)
  | PyNaN => true
  | PyInf _ => true
  | PyStr s => negb (s =? "")
  | PyList l => match l with [] => false | _ :: _ => true end
  | PyDict d => match d with [] => false | _ :: _ => true end
  end.

(** Items of a dict are kept in insertion order, one per key. *)
Fixpoint dict_lookup (k : string) (d : list (string * pyval)) : option pyval :=
  match d with
  | [] => None
  | (k', v) :: d' => if k' =? k then Some v else dict_lookup k d'
  end.

(** [d[k] = v] *)
Fixpoint dict_set (k : string) (v : pyval) (d : list (string * pyval))
  : list (string * pyval) :=
  match d with
  | [] => [(k, v)]
  | (k', v') :: d' =>
      if k' =? k then (k', v) :: d' else (k', v') :: dict_set k v d'
  end.

(** The exceptions that occur in [janus.py]. *)
Inductive exn : Type :=
| JSONDecodeError
| AttributeError
| OSError
| JanusNotSupportedException (stdoutdata : string)
| JanusQuit (returncode : Z).   (* Exception('Janus quit! ...') *)

(** [o.get(k, default)]: only a dict has the method. *)
Definition py_get (o : pyval) (k : string) (default : pyval) : pyval + exn :=
  match o with
  | PyDict d =>
      inl (match dict_lookup k d with Some v => v | None => default end)
  | _ => inr AttributeError
  end.

(** ** A decoder for JSON texts

    [json.loads] belongs to Python's library; the development is parametric
    in it (class [JsonLib] below).  [json_decode] is a decoder for the JSON
    grammar as Python's strict decoder reads it, used to run the router on
    concrete messages. *)
Module Json.

Definition dquote : ascii := "034"%char.
Definition backslash : ascii := "092"%char.

Definition is_ws (c : ascii) : bool :=
  match nat_of_ascii c with
  | 32 | 9 | 10 | 13 => true
  | _ => false
  end.

Fixpoint skip_ws (s : list ascii) : list ascii :=
  match s with
  | c :: r => if is_ws c then skip_ws r else s
  | [] => []
  end.

Definition digit_val (c : ascii) : option N :=
  let n := N_of_ascii c in
  if ((48 <=? n) && (n <=? 57))%N then Some (n - 48)%N else None.

Definition hex_val (c : ascii) : option N :=
  let n := N_of_ascii c in
  if ((48 <=? n) && (n <=? 57))%N then Some (n - 48)%N
  else if ((97 <=? n) && (n <=? 102))%N then Some (n - 87)%N
  else if ((65 <=? n) && (n <=? 70))%N then Some (n - 55)%N
  else None.

(** The longest run of decimal digits at the head of [s]: its value, its
    length and the rest. *)
Fixpoint digits (acc : N) (len : nat) (s : list ascii) : N * nat * list ascii :=
  match s with
  | c :: r =>
      match digit_val c with
      | Some d => digits (10 * acc + d)%N (S len) r
      | None => (acc, len, s)
      end
  | [] => (acc, len, [])
  end.

Definition byte (n : N) : ascii := ascii_of_N n.

(** UTF-8 bytes of a code point (a lone surrogate is written like any other
    three-byte code point). *)
Definition utf8 (cp : N) : list ascii :=
  if (cp <? 128)%N then [byte cp]
  else if (cp <? 2048)%N then
    [byte (192 + cp / 64); byte (128 + cp mod 64)]%N
  else if (cp <? 65536)%N then
    [byte (224 + cp / 4096); byte (128 + (cp / 64) mod 64);
     byte (128 + cp mod 64)]%N
  else
    [byte (240 + cp / 262144); byte (128 + (cp / 4096) mod 64);
     byte (128 + (cp / 64) mod 64); byte (128 + cp mod 64)]%N.

Definition hex4 (s : list ascii) : option (N * list ascii) :=
  match s with
  | a :: b :: c :: d :: r =>
      match hex_val a, hex_val b, hex_val c, hex_val d with
      | Some x, Some y, Some z, Some w =>
          Some (4096 * x + 256 * y + 16 * z + w, r)%N
      | _, _, _, _ => None
      end
  | _ => None
  end.

(** The escape after backslash-u: a high surrogate followed by an escaped low
    surrogate is one code point. *)
Definition unicode_escape (s : list ascii) : option (list ascii * list ascii) :=
  match hex4 s with
  | None => None
  | Some (hi, r) =>
      if ((55296 <=? hi) && (hi <=? 56319))%N then
        match r with
        | b :: u :: r2 =>
            if (Ascii.eqb b backslash && Ascii.eqb u "u"%char)%bool then
              match hex4 r2 with
              | Some (lo, r3) =>
                  if ((56320 <=? lo) && (lo <=? 57343))%N then
                    Some (utf8 (65536 + (hi - 55296) * 1024 + (lo - 56320))%N, r3)
                  else Some (utf8 hi, r)
              | None => Some (utf8 hi, r)
              end
            else Some (utf8 hi, r)
        | _ => Some (utf8 hi, r)
        end
      else Some (utf8 hi, r)
  end.

(** The body of a string, after its opening quote. *)
Fixpoint scanstring (fuel : nat) (acc : list ascii) (s : list ascii)
  : option (string * list ascii) :=
  match fuel with
  | O => None
  | S fuel =>
      match s with
      | [] => None
      | c :: r =>
          if Ascii.eqb c dquote then
            Some (string_of_list_ascii (rev acc), r)
          else if Ascii.eqb c backslash then
            match r with
            | [] => None
            | e :: r' =>
                if Ascii.eqb e "u"%char then
                  match unicode_escape r' with
                  | Some (bs, r'') => scanstring fuel (rev bs ++ acc) r''
                  | None => None
                  end
                else
                  let plain (x : ascii) := scanstring fuel (x :: acc) r' in
                  if Ascii.eqb e dquote then plain dquote
                  else if Ascii.eqb e backslash then plain backslash
                  else if Ascii.eqb e "/"%char then plain "/"%char
                  else if Ascii.eqb e "b"%char then plain "008"%char
                  else if Ascii.eqb e "f"%char then plain "012"%char
                  else if Ascii.eqb e "n"%char then plain "010"%char
                  else if Ascii.eqb e "r"%char then plain "013"%char
                  else if Ascii.eqb e "t"%char then plain "009"%char
                  else None
            end
          else if (N_of_ascii c <? 32)%N then None
          else scanstring fuel (c :: acc) r
      end
  end.

(** The fraction: a dot and at least one digit. *)
Definition fraction (s : list ascii) : option (N * nat * list ascii) :=
  match s with
  | "."%char :: r =>
      match digits 0 0 r with
      | (_, O, _) => None
      | res => Some res
      end
  | _ => None
  end.

(** The exponent: e or E, an optional sign, at least one digit. *)
Definition exponent (s : list ascii) : option (Z * list ascii) :=
  match s with
  | c :: r =>
      if (Ascii.eqb c "e"%char || Ascii.eqb c "E"%char)%bool then
        let '(sg, r1) :=
          match r with
          | "-"%char :: r1 => (true, r1)
          | "+"%char :: r1 => (false, r1)
          | _ => (false, r)
          end in
        match digits 0 0 r1 with
        | (_, O, _) => None
        | (v, _, r2) => Some (if sg then (- Z.of_N v)%Z else Z.of_N v, r2)
        end
      else None
  | [] => None
  end.

(** A number: an optional minus, an integer part without leading zero, an
    optional fraction, an optional exponent.  It is an int when the literal
    has neither fraction nor exponent, a float otherwise. *)
Definition number (s : list ascii) : option (pyval * list ascii) :=
  let '(neg, s1) :=
    match s with
    | "-"%char :: r => (true, r)
    | _ => (false, s)
    end in
  let int_part :=
    match s1 with
    | "0"%char :: r => Some (0%N, r)
    | _ => match digits 0 0 s1 with
           | (_, O, _) => None
           | (v, _, r) => Some (v, r)
           end
    end in
  match int_part with
  | None => None
  | Some (i, r) =>
      let '(m, fl, r1, isf) :=
        match fraction r with
        | Some (f, len, r1) => ((i * 10 ^ N.of_nat len + f)%N, len, r1, true)
        | None => (i, O, r, false)
        end in
      match exponent r1 with
      | Some (e, r2) => Some (PyFloat neg m (e - Z.of_nat fl), r2)
      | None =>
          if isf then Some (PyFloat neg m (- Z.of_nat fl), r1)
          else Some (PyInt (if neg then - Z.of_N i else Z.of_N i), r1)
      end
  end.

(** [s] starts with [p]: the rest. *)
Fixpoint strip_prefix (p s : list ascii) : option (list ascii) :=
  match p, s with
  | [], _ => Some s
  | a :: p', b :: s' => if Ascii.eqb a b then strip_prefix p' s' else None
  | _ :: _, [] => None
  end.

Definition literal (word : string) (v : pyval) (s : list ascii)
  : option (pyval * list ascii) :=
  match strip_prefix (list_ascii_of_string word) s with
  | Some r => Some (v, r)
  | None => None
  end.

Definition first_of {A} (a b : option A) : option A :=
  match a with Some _ => a | None => b end.

(** [scan_once] reads one value; [members] the pairs of an object after its
    brace, [items] the elements of an array after its bracket. *)
Fixpoint scan_once (fuel : nat) (s : list ascii) {struct fuel}
  : option (pyval * list ascii) :=
  match fuel with
  | O => None
  | S fuel =>
      match s with
      | [] => None
      | c :: r =>
          if Ascii.eqb c dquote then
            match scanstring (S (List.length r)) [] r with
            | Some (str, r') => Some (PyStr str, r')
            | None => None
            end
          else if Ascii.eqb c "{"%char then
            match skip_ws r with
            | "}"%char :: r' => Some (PyDict [], r')
            | r' => members fuel [] r'
            end
          else if Ascii.eqb c "["%char then
            match skip_ws r with
            | "]"%char :: r' => Some (PyList [], r')
            | r' => items fuel [] r'
            end
          else
            first_of (literal "null" PyNone s)
            (first_of (literal "true" (PyBool true) s)
            (first_of (literal "false" (PyBool false) s)
            (first_of (number s)
            (first_of (literal "NaN" PyNaN s)
            (first_of (literal "Infinity" (PyInf false) s)
                      (literal "-Infinity" (PyInf true) s))))))
      end
  end
with members (fuel : nat) (acc : list (string * pyval)) (s : list ascii)
     {struct fuel} : option (pyval * list ascii) :=
  match fuel with
  | O => None
  | S fuel =>
      match s with
      | c :: r =>
          if Ascii.eqb c dquote then
            match scanstring (S (List.length r)) [] r with
            | Some (key, r1) =>
                match skip_ws r1 with
                | ":"%char :: r2 =>
                    match scan_once fuel (skip_ws r2) with
                    | Some (v, r3) =>
                        let acc' := dict_set key v acc in
                        match skip_ws r3 with
                        | "}"%char :: r4 => Some (PyDict acc', r4)
                        | ","%char :: r4 => members fuel acc' (skip_ws r4)
                        | _ => None
                        end
                    | None => None
                    end
                | _ => None
                end
            | None => None
            end
          else None
      | [] => None
      end
  end
with items (fuel : nat) (acc : list pyval) (s : list ascii) {struct fuel}
     : option (pyval * list ascii) :=
  match fuel with
  | O => None
  | S fuel =>
      match scan_once fuel s with
      | Some (v, r) =>
          match skip_ws r with
          | "]"%char :: r' => Some (PyList (rev (v :: acc)), r')
          | ","%char :: r' => items fuel (v :: acc) (skip_ws r')
          | _ => None
          end
      | None => None
      end
  end.

(** [json.loads(s)]: one value between optional white space, nothing
    after it. *)
Definition json_decode (raw : string) : option pyval :=
  let s := list_ascii_of_string raw in
  match scan_once (2 * List.length s + 2) (skip_ws s) with
  | Some (v, r) => match skip_ws r with [] => Some v | _ :: _ => None end
  | None => None
  end.

(** Message texts are written with apostrophes where JSON has double
    quotes; [dq] puts the double quotes in. *)
Definition dq (s : string) : string :=
  string_of_list_ascii
    (map (fun c => if Ascii.eqb c "'"%char then dquote else c)
         (list_ascii_of_string s)).

End Json.

(** ** What surrounds [janus.py] *)

(** Everything [JanusConn] reads from outside: Python's [json.loads]
    ([None] when it raises), the module constants taken from the file system
    and the process environment, the plugin's settings, and what the two
    scripts do when they are run. *)
Class Host : Type := {
  json_loads : string -> option pyval;
  JANUS_DIR : string;
  JANUS_SERVER : string;
  pi_version : pyval;                    (* utils.pi_version() *)
  disable_video_streaming : pyval;       (* _settings.get(["disable_video_streaming"]) *)
  auth_token : string;                   (* _settings.get(["auth_token"]), formatted *)
  (** [setup.sh]: [None] when [psutil.Popen] raises, else the return code
      and the captured output. *)
  setup_result : option (Z * string);
  (** The k-th [subprocess.Popen] of [run.sh]: [None] when it raises, else
      the lines the gateway writes before it exits and its exit code. *)
  run_result : nat -> option (list string * Z)
}.

(** [JANUS_WS_PORT = 17058], as [format] writes it. *)
Definition JANUS_WS_PORT : string := "17058".

(** Modelled from the spec: [ExpoBackoff] of [utils.py], which is not among
    the sources.  [more] records a failure and advances the attempt count,
    [reset] clears the attempt count to zero, and neither has an effect
    beyond the counters. *)
Record ExpoBackoff : Type := {
  max_seconds : Z;
  max_attempts : nat;
  attempts : nat
}.

Definition more (b : ExpoBackoff) : ExpoBackoff :=
  {| max_seconds := max_seconds b; max_attempts := max_attempts b;
     attempts := S (attempts b) |}.

Definition reset (b : ExpoBackoff) : ExpoBackoff :=
  {| max_seconds := max_seconds b; max_attempts := max_attempts b;
     attempts := 0 |}.

(** Modelled from the spec: [WebSocketClient] of [ws.py], which is not among
    the sources.  Creating one opens a new link to the endpoint; [connected]
    tells whether its transport is connected; [send] and [close] act on the
    transport. *)
Record WebSocketClient : Type := {
  ws_id : nat;
  url : string;
  sock_connected : bool
}.

(** The handle [subprocess.Popen] returns for the k-th launch. *)
Inductive Popen : Type := Process (launch : nat).

Inductive level : Type := Debug | Warning.

Inductive log_record : Type :=
| Text (s : string)
| Value (v : pyval)
| Raised (e : exn)
| JanusLine (line : string).   (* 'JANUS: ' + line.rstrip() *)

(** The calls that leave [janus.py]. *)
Inductive event : Type :=
| Log (l : level) (what : log_record)             (* _logger.debug / .warning *)
| CaptureException                             (* plugin.sentry.captureException() *)
| OnMessageToPlugin (payload : pyval)          (* plugin.client_conn.on_message_to_plugin *)
| SendWsMsgToServer (msg : pyval)              (* plugin.send_ws_msg_to_server *)
| AddAlert (alert : pyval) (post_to_server : bool)   (* alert_queue.add_alert *)
| PopenSetup (cmd : string)                    (* psutil.Popen(setup_cmd.split(), ...) *)
| PopenRun (cmd : string)                      (* subprocess.Popen(janus_cmd.split(), ...) *)
| ProcWait (p : Popen)                         (* janus_proc.wait() *)
| ProcTerminate (p : Popen)                    (* janus_proc.terminate() *)
| BackoffSleep (tries : nat) (wait : Z)        (* the sleep of backoff.on_exception *)
| WsNew (ws : nat) (url : string)              (* WebSocketClient(url, ...) *)
| WsSend (ws : nat) (msg : string)             (* janus_ws.send(msg) *)
| WsClose (ws : nat).                          (* janus_ws.close() *)

(** The fields of a [JanusConn]. *)
Record JanusConn : Type := {
  janus_ws_backoff : ExpoBackoff;
  janus_ws : option WebSocketClient;
  janus_proc : option Popen;
  shutting_down : bool
}.

(** Where the thread of [run_janus_forever] stands.  [tries] counts the calls
    of [run_janus] made by the retry decorator, [n] is [num_line_output]. *)
Inductive sup_pc : Type :=
| AtSetup                          (* before setup_janus_config() *)
| AtRunJanus (tries : nat)         (* before a call of run_janus() *)
| AtWhile (tries n : nat)          (* while not self.shutting_down *)
| AtReadline (tries n : nat)       (* evaluating self.janus_proc.stdout *)
| InReadline (tries n : nat)       (* inside readline() *)
| AtElif (tries n : nat)           (* elif not self.shutting_down *)
| AtWait (tries n : nat)           (* self.janus_proc.wait(); raise *)
| Finished.                        (* run_janus_forever has returned *)

(** The object, the calls it has made so far (oldest first) and the state of
    what it talks to. *)
Record world : Type := {
  self : JanusConn;
  trace : list event;
  sup : sup_pc;
  ws_created : nat;           (* websocket clients created so far *)
  launched : nat;             (* Popen calls of run.sh so far *)
  stdout_rest : list string   (* unread output of the gateway launched last *)
}.

(** [JanusConn.__init__], with the supervisor thread about to run. *)
Definition init : world :=
  {| self := {| janus_ws_backoff :=
                  {| max_seconds := 120; max_attempts := 20; attempts := 0 |};
                janus_ws := None; janus_proc := None; shutting_down := false |};
     trace := []; sup := AtSetup; ws_created := 0; launched := 0;
     stdout_rest := [] |}.

(** ** Computations that change the world and may raise *)

Definition M (A : Type) : Type := world -> (A + exn) * world.

Definition ret {A} (a : A) : M A := fun w => (inl a, w).

Definition bind {A B} (m : M A) (f : A -> M B) : M B :=
  fun w => match m w with
           | (inl a, w') => f a w'
           | (inr e, w') => (inr e, w')
           end.

Definition raise {A} (e : exn) : M A := fun w => (inr e, w).

(** [try: m  except: h] *)
Definition try_except {A} (m : M A) (h : exn -> M A) : M A :=
  fun w => match m w with
           | (inl a, w') => (inl a, w')
           | (inr e, w') => h e w'
           end.

Definition lift {A} (r : A + exn) : M A := fun w => (r, w).

Definition get : M world := fun w => (inl w, w).

Definition put (w : world) : M unit := fun _ => (inl tt, w).

Declare Scope janus_scope.
Delimit Scope janus_scope with janus.
Notation "x <- m ;; k" := (bind m (fun x => k))
  (at level 61, m at next level, right associativity) : janus_scope.
Notation "m ;; k" := (bind m (fun _ => k))
  (at level 61, right associativity) : janus_scope.
Local Open Scope janus_scope.

Definition with_self (s : JanusConn) (w : world) : world :=
  {| self := s; trace := trace w; sup := sup w; ws_created := ws_created w;
     launched := launched w; stdout_rest := stdout_rest w |}.

Definition with_sup (pc : sup_pc) (w : world) : world :=
  {| self := self w; trace := trace w; sup := pc; ws_created := ws_created w;
     launched := launched w; stdout_rest := stdout_rest w |}.

Definition with_stdout (out : list string) (w : world) : world :=
  {| self := self w; trace := trace w; sup := sup w; ws_created := ws_created w;
     launched := launched w; stdout_rest := out |}.

(** Make a call that leaves the file. *)
Definition call (e : event) : M unit :=
  fun w => (inl tt,
            {| self := self w; trace := trace w ++ [e]; sup := sup w;
               ws_created := ws_created w; launched := launched w;
               stdout_rest := stdout_rest w |}).

Definition get_self : M JanusConn := fun w => (inl (self w), w).

Definition set_self (s : JanusConn) : M unit := fun w => (inl tt, with_self s w).

Definition set_janus_ws_backoff (b : ExpoBackoff) : M unit :=
  s <- get_self ;;
  set_self {| janus_ws_backoff := b; janus_ws := janus_ws s;
              janus_proc := janus_proc s; shutting_down := shutting_down s |}.

Definition set_janus_ws (ws : option WebSocketClient) : M unit :=
  s <- get_self ;;
  set_self {| janus_ws_backoff := janus_ws_backoff s; janus_ws := ws;
              janus_proc := janus_proc s; shutting_down := shutting_down s |}.

Definition set_janus_proc (p : option Popen) : M unit :=
  s <- get_self ;;
  set_self {| janus_ws_backoff := janus_ws_backoff s; janus_ws := janus_ws s;
              janus_proc := p; shutting_down := shutting_down s |}.

Definition set_shutting_down (b : bool) : M unit :=
  s <- get_self ;;
  set_self {| janus_ws_backoff := janus_ws_backoff s; janus_ws := janus_ws s;
              janus_proc := janus_proc s; shutting_down := b |}.

(** ** The methods of [JanusConn] *)

Section Operations.

Context {host : Host}.

(** *** The router of inbound gateway messages *)

(** [json.loads(raw_msg)] *)
Definition loads (raw_msg : string) : M pyval :=
  match json_loads raw_msg with
  | Some v => ret v
  | None => raise JSONDecodeError
  end.

(** [process_janus_msg]: the value it returns is what [on_message] tests.
    The bare [except:] catches whatever the body raises. *)
Definition process_janus_msg (raw_msg : string) : M pyval :=
  try_except
    (msg <- loads raw_msg ;;
     plugindata <- lift (py_get msg "plugindata" (PyDict [])) ;;
     data <- lift (py_get plugindata "data" (PyDict [])) ;;
     to_plugin <- lift (py_get data "thespaghettidetective" (PyDict [])) ;;
     if truthy to_plugin then
       call (Log Debug (Text "Processing WebRTC data channel msg from client:")) ;;
       call (Log Debug (Value msg)) ;;
       call (OnMessageToPlugin to_plugin) ;;
       ret PyNone                                   (* return *)
     else
       call (Log Debug (Text "Relaying Janus msg")) ;;
       call (Log Debug (Value msg)) ;;
       call (SendWsMsgToServer (PyDict [("janus", PyStr raw_msg)])) ;;
       ret PyNone)                                  (* falls off the end *)
    (fun _ => call CaptureException ;; ret PyNone).

(** *** The link to the gateway *)

(** [start_janus_ws]: a new client replaces the one held. *)
Definition start_janus_ws : M unit :=
  w <- get ;;
  let ws := {| ws_id := ws_created w;
               url := ("ws://" ++ JANUS_SERVER ++ ":" ++ JANUS_WS_PORT ++ "/")%string;
               sock_connected := true |} in
  put {| self := self w; trace := trace w; sup := sup w;
         ws_created := S (ws_created w); launched := launched w;
         stdout_rest := stdout_rest w |} ;;
  call (WsNew (ws_id ws) (url ws)) ;;
  set_janus_ws (Some ws).

(** The callback [on_close] that [start_janus_ws] registers. *)
Definition on_close : M unit :=
  s <- get_self ;;
  set_janus_ws_backoff (more (janus_ws_backoff s)) ;;
  s <- get_self ;;
  if negb (shutting_down s) then
    call (Log Warning (Text "Reconnecting to Janus WS.")) ;;
    start_janus_ws
  else ret tt.

(** The callback [on_message] that [start_janus_ws] registers. *)
Definition on_message (msg : string) : M unit :=
  r <- process_janus_msg msg ;;
  if truthy r then
    s <- get_self ;;
    set_janus_ws_backoff (reset (janus_ws_backoff s))
  else ret tt.

(** [connected]: [self.janus_ws and self.janus_ws.connected()] *)
Definition connected : M bool :=
  s <- get_self ;;
  match janus_ws s with
  | Some ws => ret (sock_connected ws)
  | None => ret false
  end.

Definition pass_to_janus (msg : string) : M unit :=
  c <- connected ;;
  if c then
    s <- get_self ;;
    match janus_ws s with
    | Some ws => call (WsSend (ws_id ws) msg)
    | None => raise AttributeError
    end
  else ret tt.

(** [shutdown].  A terminated gateway writes nothing more. *)
Definition shutdown : M unit :=
  set_shutting_down true ;;
  s <- get_self ;;
  match janus_ws s with
  | Some ws => call (WsClose (ws_id ws))
  | None => ret tt
  end ;;
  set_janus_ws None ;;
  s <- get_self ;;
  match janus_proc s with
  | Some p =>
      try_except
        (call (ProcTerminate p) ;;
         w <- get ;;
         put (with_stdout [] w))
        (fun _ => ret tt)
  | None => ret tt
  end ;;
  set_janus_proc None.

(** *** The supervisor of the gateway process *)

(** [v is not True] *)
Definition is_not_True (v : pyval) : bool :=
  match v with
  | PyBool true => false
  | _ => true
  end.

(** The local variables of [setup_janus_config]. *)
Definition video_enabled : string :=
  if (truthy pi_version && is_not_True disable_video_streaming)%bool
  then "true" else "false".

Definition setup_cmd : string :=
  let cmd_path := (JANUS_DIR ++ "/setup.sh")%string in
  (cmd_path ++ " -A " ++ auth_token ++ " -V " ++ video_enabled)%string.

Definition setup_janus_config : M unit :=
  call (PopenSetup setup_cmd) ;;
  match setup_result with
  | None => raise OSError
  | Some (returncode, stdoutdata) =>
      if negb (returncode =? 0)%Z then
        raise (JanusNotSupportedException stdoutdata)
      else ret tt
  end.

Definition streaming_failed_alert : pyval :=
  PyDict
    [("level", PyStr "warning");
     ("cause", PyStr "streaming");
     ("title", PyStr "Webcam Streaming Failed");
     ("text", PyStr "The webcam streaming failed to start. Obico is now streaming your webcam at 0.1 FPS.");
     ("info_url", PyStr "https://www.obico.io/docs/user-guides/warnings/webcam-streaming-failed-to-start/");
     ("buttons", PyList [PyStr "more_info"; PyStr "never"; PyStr "ok"])].

(** The two [except] clauses of [run_janus_forever]; the thread ends after
    either. *)
Definition run_janus_forever_except (e : exn) : M sup_pc :=
  match e with
  | JanusNotSupportedException _ =>
      call (Log Warning (Raised e)) ;;
      ret Finished
  | _ =>
      call CaptureException ;;
      call (AddAlert streaming_failed_alert true) ;;
      ret Finished
  end.

Definition max_tries : nat := 5.

(** [backoff.expo]: the value number [n] it yields, from [n = 0]. *)
Definition expo (n : nat) : Z := 2 ^ Z.of_nat n.

(** [backoff.on_exception(backoff.expo, Exception, max_tries=5)] when the
    call number [tries] of [run_janus] has raised [e]: give up and raise
    [e] to the caller at the last try, sleep and call again before.  The
    sleep is drawn by the jitter from zero to the next value of
    [backoff.expo], which the event records. *)
Definition on_exception (tries : nat) (e : exn) : M sup_pc :=
  if (tries =? max_tries)%nat then raise e
  else
    call (BackoffSleep tries (expo (tries - 1))) ;;
    ret (AtRunJanus (S tries)).

Definition janus_cmd : string := (JANUS_DIR ++ "/run.sh")%string.

(** The start of [run_janus]: launch the gateway. *)
Definition run_janus_launch (tries : nat) : M sup_pc :=
  call (Log Debug (Text ("Popen: " ++ janus_cmd)%string)) ;;
  w <- get ;;
  put {| self := self w; trace := trace w; sup := sup w;
         ws_created := ws_created w; launched := S (launched w);
         stdout_rest := stdout_rest w |} ;;
  call (PopenRun janus_cmd) ;;
  match run_result (launched w) with
  | None => raise OSError
  | Some (lines, _) =>
      w' <- get ;;
      put (with_stdout lines w') ;;
      set_janus_proc (Some (Process (launched w))) ;;
      ret (AtWhile tries 0)
  end.

(** [readline()] on the gateway's output: the next line, or the empty
    string at the end of the stream. *)
Definition readline : M string :=
  w <- get ;;
  match stdout_rest w with
  | line :: rest => put (with_stdout rest w) ;; ret line
  | [] => ret ""
  end.

(** One step of [run_janus] from the place [pc]. *)
Definition run_janus_step (pc : sup_pc) : M sup_pc :=
  match pc with
  | AtRunJanus tries => run_janus_launch tries
  | AtWhile tries n =>
      s <- get_self ;;
      if negb (shutting_down s) then ret (AtReadline tries n)
      else ret Finished                              (* run_janus returns *)
  | AtReadline tries n =>
      s <- get_self ;;
      match janus_proc s with
      | Some _ => ret (InReadline tries n)
      | None => raise AttributeError
      end
  | InReadline tries n =>
      line <- readline ;;
      if (negb (line =? "") && (n <? 1000)%nat)%bool then
        call (Log Debug (JanusLine line)) ;;
        ret (AtWhile tries (S n))
      else ret (AtElif tries n)
  | AtElif tries n =>
      s <- get_self ;;
      if negb (shutting_down s) then ret (AtWait tries n)
      else ret (AtWhile tries n)
  | AtWait tries n =>
      s <- get_self ;;
      match janus_proc s with
      | Some (Process k) =>
          call (ProcWait (Process k)) ;;
          raise (JanusQuit
                   (match run_result k with Some (_, rc) => rc | None => 0%Z end))
      | None => raise AttributeError
      end
  | AtSetup => ret pc
  | Finished => ret pc
  end.

Definition tries_of (pc : sup_pc) : nat :=
  match pc with
  | AtRunJanus t | AtWhile t _ | AtReadline t _ | InReadline t _
  | AtElif t _ | AtWait t _ => t
  | AtSetup | Finished => 0
  end.

(** One step of the thread of [run_janus_forever]. *)
Definition run_janus_forever (pc : sup_pc) : M sup_pc :=
  match pc with
  | Finished => ret Finished
  | AtSetup =>
      try_except
        (setup_janus_config ;; ret (AtRunJanus 1))
        run_janus_forever_except
  | _ =>
      try_except
        (try_except (run_janus_step pc) (on_exception (tries_of pc)))
        run_janus_forever_except
  end.

(** *** The threads together *)

(** What can happen next: a step of the supervisor thread, a call by the
    plugin, a callback of the websocket client.  Each is atomic. *)
Inductive action : Type :=
| SupervisorStep                 (* the supervisor thread takes a step *)
| CallStartJanusWs               (* start() reaches its call of start_janus_ws() *)
| CallShutdown                   (* the plugin calls shutdown() *)
| CallPassToJanus (msg : string) (* the plugin calls pass_to_janus(msg) *)
| WsClosed                       (* the websocket client calls on_close *)
| WsMessage (msg : string).      (* the websocket client calls on_message *)

Definition run {A} (m : M A) (w : world) : world := snd (m w).

Definition step (a : action) (w : world) : world :=
  match a with
  | SupervisorStep =>
      match run_janus_forever (sup w) w with
      | (inl pc, w') => with_sup pc w'
      | (inr _, w') => with_sup Finished w'
      end
  | CallStartJanusWs => run start_janus_ws w
  | CallShutdown => run shutdown w
  | CallPassToJanus msg => run (pass_to_janus msg) w
  | WsClosed => run on_close w
  | WsMessage msg => run (on_message msg) w
  end.

Definition exec (schedule : list action) (w : world) : world :=
  fold_left (fun w a => step a w) schedule w.

End Operations.

(** ** Reading a trace *)

Definition count (p : event -> bool) (t : list event) : nat :=
  List.length (filter p t).

Definition is_launch (e : event) : bool :=
  match e with PopenRun _ => true | _ => false end.

Definition is_setup (e : event) : bool :=
  match e with PopenSetup _ => true | _ => false end.

Definition is_sleep (e : event) : bool :=
  match e with BackoffSleep _ _ => true | _ => false end.

Definition is_crash_report (e : event) : bool :=
  match e with CaptureException => true | _ => false end.

Definition is_alert (e : event) : bool :=
  match e with AddAlert _ _ => true | _ => false end.

Definition is_connect (e : event) : bool :=
  match e with WsNew _ _ => true | _ => false end.

Definition is_to_plugin (e : event) : bool :=
  match e with OnMessageToPlugin _ => true | _ => false end.

Definition is_to_server (e : event) : bool :=
  match e with SendWsMsgToServer _ => true | _ => false end.

Definition is_janus_line (e : event) : bool :=
  match e with Log _ (JanusLine _) => true | _ => false end.

Definition is_warning (e : event) : bool :=
  match e with Log Warning _ => true | _ => false end.

(** ** Concrete hosts, to run the model *)

Module Sample.

(** A Raspberry Pi with video streaming on, whose [json.loads] is the
    decoder above; [setup] and [runs] say what the two scripts do. *)
Definition host (setup : option (Z * string))
                (runs : nat -> option (list string * Z)) : Host :=
  {| json_loads := Json.json_decode;
     JANUS_DIR := "/plugin/bin/janus";
     JANUS_SERVER := "127.0.0.1";
     pi_version := PyInt 4;
     disable_video_streaming := PyBool false;
     auth_token := "secret";
     setup_result := setup;
     run_result := runs |}.

(** The gateway writes nothing and exits with code 1, at every launch. *)
Definition crashing : Host := host (Some (0%Z, "")) (fun _ => Some ([], 1%Z)).

(** [setup.sh] exits with code 1. *)
Definition unsupported : Host :=
  host (Some (1%Z, "unsupported platform")) (fun _ => Some ([], 1%Z)).

(** The first gateway writes 1001 lines, the later ones write nothing. *)
Definition chatty : Host :=
  host (Some (0%Z, ""))
       (fun k => match k with
                 | O => Some (repeat "line
" 1001, 0%Z)
                 | _ => Some ([], 0%Z)
                 end).

(** The first gateway writes 3000 lines of 64 bytes, the later ones write
    nothing. *)
Definition talkative : Host :=
  host (Some (0%Z, ""))
    (fun k => match k with
              | O => Some (repeat "[janus] Sending a keyframe request to the streaming mountpoint.
" (3 * 1000), 1%Z)
              | _ => Some ([], 1%Z)
              end).

Definition ack : string := Json.dq "{'janus': 'ack', 'transaction': 'abc'}".

Definition empty_payload : string :=
  Json.dq "{'plugindata': {'data': {'thespaghettidetective': {}}}}".

Definition to_plugin_msg : string :=
  Json.dq "{'plugindata': {'data': {'thespaghettidetective': {'ref': 1}}}}".

End Sample.


(** The payloads handed to the plugin's handler, oldest first. *)
Definition to_plugin_calls (t : list event) : list pyval :=
  flat_map (fun e => match e with OnMessageToPlugin v => [v] | _ => [] end) t.

(** The envelopes handed to the sink towards the server, oldest first. *)
Definition to_server_calls (t : list event) : list pyval :=
  flat_map (fun e => match e with SendWsMsgToServer v => [v] | _ => [] end) t.


(** The world after the calls [evs] and nothing else. *)
Definition emit (evs : list event) (w : world) : world :=
  {| self := self w; trace := trace w ++ evs; sup := sup w;
     ws_created := ws_created w; launched := launched w;
     stdout_rest := stdout_rest w |}.

(** ** The routing rule in the words of the specification *)

(** The value at [plugindata.data.thespaghettidetective], when the envelope
    contains that path. *)
Definition nested_path (msg : pyval) : option pyval :=
  match msg with
  | PyDict d =>
      match dict_lookup "plugindata" d with
      | Some (PyDict d1) =>
          match dict_lookup "data" d1 with
          | Some (PyDict d2) => dict_lookup "thespaghettidetective" d2
          | _ => None
          end
      | _ => None
      end
  | _ => None
  end.

(** A JSON object whose [plugindata], if it has one, is an object whose
    [data], if it has one, is an object. *)
Definition is_envelope (msg : pyval) : bool :=
  match msg with
  | PyDict d =>
      match dict_lookup "plugindata" d with
      | None => true
      | Some (PyDict d1) =>
          match dict_lookup "data" d1 with
          | None => true
          | Some (PyDict _) => true
          | Some _ => false
          end
      | Some _ => false
      end
  | _ => false
  end.

(** Between [w] and [w'] the payload [v] went to the plugin's handler and
    nothing went to the server. *)
Definition routed_to_plugin_only (v : pyval) (w w' : world) : Prop :=
  to_plugin_calls (trace w') = to_plugin_calls (trace w) ++ [v] /\
  to_server_calls (trace w') = to_server_calls (trace w).

(** Between [w] and [w'] the text [raw] went to the server as
    [dict(janus=raw)] and nothing went to the plugin's handler. *)
Definition relayed_only (raw : string) (w w' : world) : Prop :=
  to_server_calls (trace w') =
    to_server_calls (trace w) ++ [PyDict [("janus", PyStr raw)]] /\
  to_plugin_calls (trace w') = to_plugin_calls (trace w).

(** Routing decided by the presence of the path alone. *)
Definition routed_by_presence {host : Host} (raw : string) (w : world) : Prop :=
  forall msg, json_loads raw = Some msg ->
    match nested_path msg with
    | Some v => routed_to_plugin_only v w (run (process_janus_msg raw) w)
    | None => relayed_only raw w (run (process_janus_msg raw) w)
    end.

(** ** The supervisor running alone *)

(** [n] steps of the supervisor thread and of nothing else. *)
Definition supervise {host : Host} (n : nat) (w : world) : world :=
  exec (repeat SupervisorStep n) w.

(** A failed provisioning that is logged, launches nothing, engages no
    backoff and enqueues one alert. *)
Definition provisioning_failure_alerts_once {host : Host} (w : world) : Prop :=
  let w' := step SupervisorStep w in
  sup w' = Finished /\
  count is_warning (trace w') = S (count is_warning (trace w)) /\
  count is_launch (trace w') = count is_launch (trace w) /\
  count is_sleep (trace w') = count is_sleep (trace w) /\
  count is_alert (trace w') = S (count is_alert (trace w)).

(** The lines the drain loop logs when it starts with [num_line_output = n]
    on the output [lines] and [shutting_down] stays false. *)
Fixpoint logged (n : nat) (lines : list string) : list string :=
  match lines with
  | line :: rest =>
      if (negb (line =? "") && (n <? 1000)%nat)%bool
      then line :: logged (S n) rest
      else []
  | [] => []
  end.

(** What that loop leaves unread. *)
Fixpoint unread (n : nat) (lines : list string) : list string :=
  match lines with
  | line :: rest =>
      if (negb (line =? "") && (n <? 1000)%nat)%bool
      then unread (S n) rest
      else rest
  | [] => []
  end.

Definition janus_lines (lines : list string) : list event :=
  map (fun line => Log Debug (JanusLine line)) lines.

(** What the retry decorator and the [except] clauses make of an exception
    raised by the call number [tries]: where the thread goes, and the calls
    made. *)
Definition after_failure (tries : nat) : sup_pc :=
  if (tries =? max_tries)%nat then Finished else AtRunJanus (S tries).

Definition failure_trace (tries : nat) : list event :=
  if (tries =? max_tries)%nat
  then [CaptureException; AddAlert streaming_failed_alert true]
  else [BackoffSleep tries (expo (tries - 1))].

(** The thread gets from [w] to [w'] on its own. *)
Definition reaches {host : Host} (w w' : world) : Prop :=
  exists n, supervise n w = w'.



(** ** The gateway while it runs *)

(** In the steps above the output the drain loop reads is there whole: the
    gateway has written it and has exited, so [wait()] returns.  Here the
    gateway is still running: [unwritten] is what it has yet to write, the
    [stdout_rest] of [seen] is what it has written and [readline()] has not
    returned yet, and it exits after its last line. *)
Record running : Type := {
  seen : world;
  unwritten : list string
}.

(** The bytes of the lines waiting between the gateway and [readline()]. *)
Definition pipe_bytes (pipe : list string) : N :=
  fold_right (fun line n => (N.of_nat (String.length line) + n)%N) 0%N pipe.

Inductive pipe_action : Type :=
| GatewayWrites      (* the gateway writes its next line *)
| SupervisorRuns.    (* the supervisor thread goes on *)

Definition is_draining (pc : sup_pc) : bool :=
  match pc with
  | AtWhile _ _ | AtReadline _ _ | InReadline _ _ | AtElif _ _ | AtWait _ _ => true
  | AtSetup | AtRunJanus _ | Finished => false
  end.

Section RunningGateway.

Context {host : Host}.

(** What the pipe and the reader's buffer hold at most, in bytes. *)
Variable capacity : N.

(** The gateway's [write] of its next line: it blocks while there is no room
    for the line. *)
Definition gateway_writes (r : running) : running :=
  match unwritten r with
  | line :: rest =>
      if (pipe_bytes (stdout_rest (seen r) ++ [line]) <=? capacity)%N
      then {| seen := with_stdout (stdout_rest (seen r) ++ [line]) (seen r);
              unwritten := rest |}
      else r
  | [] => r
  end.

(** Where the supervisor thread blocks while the gateway runs: in
    [readline()] when nothing is waiting, and in [janus_proc.wait()]. *)
Definition supervisor_blocked (r : running) : bool :=
  match unwritten r with
  | [] => false
  | _ :: _ =>
      match sup (seen r) with
      | InReadline _ _ =>
          match stdout_rest (seen r) with [] => true | _ :: _ => false end
      | AtWait _ _ =>
          match janus_proc (self (seen r)) with Some _ => true | None => false end
      | _ => false
      end
  end.

(** A step of the supervisor thread.  A gateway just launched has written
    nothing yet. *)
Definition supervisor_runs (r : running) : running :=
  if supervisor_blocked r then r
  else
    let w' := step SupervisorStep (seen r) in
    match sup (seen r), sup w' with
    | AtRunJanus _, AtWhile _ _ =>
        {| seen := with_stdout [] w'; unwritten := stdout_rest w' |}
    | _, _ => {| seen := w'; unwritten := unwritten r |}
    end.

Definition pipe_step (a : pipe_action) (r : running) : running :=
  match a with
  | GatewayWrites => gateway_writes r
  | SupervisorRuns => supervisor_runs r
  end.

Definition pipe_exec (schedule : list pipe_action) (r : running) : running :=
  fold_left (fun r a => pipe_step a r) schedule r.

(** What holds while the supervisor drains a gateway that writes [lines] and
    is the object [s], with the calls [t] made before: [k] lines have been
    read and the first 1000 of them logged. *)
Definition draining (lines : list string) (t : list event) (s : JanusConn)
    (r : running) : Prop :=
  self (seen r) = s /\
  (pipe_bytes (stdout_rest (seen r)) <= capacity)%N /\
  exists k,
    stdout_rest (seen r) ++ unwritten r = skipn k lines /\
    trace (seen r) = t ++ janus_lines (firstn (Nat.min k 1000) lines) /\
    match sup (seen r) with
    | AtWhile _ n | AtReadline _ n | InReadline _ n => n = k /\ k <= 1000
    | AtElif _ n | AtWait _ n => n = 1000 /\ k = 1001
    | AtSetup | AtRunJanus _ | Finished => False
    end.

(** The supervisor is in [wait()] and the gateway has no room to write. *)
Definition stalled (r : running) : bool :=
  match sup (seen r), janus_proc (self (seen r)), unwritten r with
  | AtWait _ _, Some _, line :: _ =>
      (capacity <? pipe_bytes (stdout_rest (seen r) ++ [line]))%N
  | _, _, _ => false
  end.

(** Where the supervisor thread is, the lines it has logged, the calls made,
    the lines in the pipe, the lines still to be written, and whether all is
    stalled. *)
Definition stall_report (r : running) : sup_pc * nat * nat * nat * nat * bool :=
  (sup (seen r), count is_janus_line (trace (seen r)),
   List.length (trace (seen r)), List.length (stdout_rest (seen r)),
   List.length (unwritten r), stalled r).

End RunningGateway.

(** The supervisor thread reads every line as soon as it is written, for
    [n] lines; then the gateway goes on writing on its own, [m] times. *)
Definition read_then_left (n m : nat) : list pipe_action :=
  List.concat
    (repeat [GatewayWrites; SupervisorRuns; SupervisorRuns; SupervisorRuns] n)
  ++ [SupervisorRuns] ++ repeat GatewayWrites m.

(** The supervisor thread of a new [JanusConn], the gateway just launched. *)
Definition gateway_launched {host : Host} (capacity : N) : running :=
  pipe_exec capacity [SupervisorRuns; SupervisorRuns]
    {| seen := init; unwritten := [] |}.

(** ** Reading a schedule and a trace, continued *)

Definition is_shutdown (a : action) : bool :=
  match a with CallShutdown => true | _ => false end.

Definition is_close (a : action) : bool :=
  match a with WsClosed => true | _ => false end.

Definition is_start_janus_ws (a : action) : bool :=
  match a with CallStartJanusWs => true | _ => false end.

Definition is_send (e : event) : bool :=
  match e with WsSend _ _ => true | _ => false end.

(** One of the three things the router can do with a message. *)
Definition is_dispatch (e : event) : bool :=
  (is_to_plugin e || is_to_server e || is_crash_report e)%bool.

Definition is_debug_log (e : event) : bool :=
  match e with Log Debug _ => true | _ => false end.

(** The calls only the supervisor thread makes. *)
Definition is_supervisor_call (e : event) : bool :=
  match e with
  | PopenSetup _ | PopenRun _ | ProcWait _ | BackoffSleep _ _ | AddAlert _ _ => true
  | _ => false
  end.

(** The texts of the messages in a schedule, in order. *)
Definition messages_of (schedule : list action) : list string :=
  flat_map (fun a => match a with WsMessage m => [m] | _ => [] end) schedule.

(** What can become of an inbound text. *)
Inductive route : Type :=
| ToPlugin (payload : pyval)
| ToServer
| Dropped.

(** What becomes of the text [raw]: dropped if it does not parse to an
    envelope, handed to the plugin if the envelope has a truthy value at
    [plugindata.data.thespaghettidetective], relayed otherwise. *)
Definition route_of {host : Host} (raw : string) : route :=
  match json_loads raw with
  | None => Dropped
  | Some msg =>
      if is_envelope msg then
        match nested_path msg with
        | Some v => if truthy v then ToPlugin v else ToServer
        | None => ToServer
        end
      else Dropped
  end.

Definition relayed {host : Host} (raw : string) : list pyval :=
  match route_of raw with
  | ToServer => [PyDict [("janus", PyStr raw)]]
  | _ => []
  end.

Definition handed_over {host : Host} (raw : string) : list pyval :=
  match route_of raw with
  | ToPlugin v => [v]
  | _ => []
  end.

(** ** What the supervisor thread keeps true *)

(** At each place of the thread, what its calls so far amount to: one run of
    [setup.sh] once it is past it, one launch per call of [run_janus], one
    sleep between two calls, no alert before the end, and at most 1000 lines
    logged per launch. *)
Definition supervisor_inv (w : world) : Prop :=
  let t := trace w in
  match sup w with
  | AtSetup =>
      count is_setup t = 0 /\ count is_launch t = 0 /\ count is_sleep t = 0 /\
      count is_alert t = 0 /\ count is_janus_line t = 0
  | AtRunJanus tries =>
      1 <= tries <= max_tries /\
      count is_setup t = 1 /\ count is_launch t = tries - 1 /\
      count is_sleep t = tries - 1 /\ count is_alert t = 0 /\
      count is_janus_line t <= 1000 * (tries - 1)
  | AtWhile tries n | AtReadline tries n | InReadline tries n
  | AtElif tries n | AtWait tries n =>
      1 <= tries <= max_tries /\
      count is_setup t = 1 /\ count is_launch t = tries /\
      count is_sleep t = tries - 1 /\ count is_alert t = 0 /\
      n <= 1000 /\ count is_janus_line t + (1000 - n) <= 1000 * tries
  | Finished =>
      count is_setup t = 1 /\ count is_launch t <= max_tries /\
      count is_sleep t <= max_tries - 1 /\ count is_alert t <= 1 /\
      count is_janus_line t <= 1000 * count is_launch t
  end.

(** ** [start] and [wait_for_janus] *)

(** What [start] reads from outside: the test of the environment variable
    [JANUS_SERVER], and whether the connection made by the call number [k]
    of [wait_for_janus] succeeds. *)
Class Startup : Type := {
  external_gateway : bool;    (* os.getenv('JANUS_SERVER', '').strip() != '' *)
  connect_ok : nat -> bool
}.

(** The calls of [wait_for_janus] and of its retry decorator. *)
Inductive probe_call : Type :=
| Sleep (seconds : Z)                      (* time.sleep(1) *)
| SocketConnect (server port : string)     (* socket.socket().connect(...) *)
| ProbeBackoff (tries : nat) (wait : Z).   (* the sleep of backoff.on_exception *)

(** Where the thread that called [start] stands. *)
Inductive start_pc : Type :=
| AtStart                      (* entering start() *)
| AtProbe (tries : nat)        (* before a call of wait_for_janus() *)
| AtConnect                    (* before start_janus_ws() *)
| StartReturned                (* start() has returned *)
| StartRaised (e : exn).       (* start() has raised *)

(** That thread: where it stands, whether it has started the supervisor
    thread, and the calls of the probe so far. *)
Record starter : Type := {
  main : start_pc;
  thread_started : bool;
  probe_calls : list probe_call
}.

(** The object and the thread in [start]. *)
Record system : Type := {
  world_of : world;
  starter_of : starter
}.

(** A new [JanusConn] on which [start] is about to be called. *)
Definition boot : system :=
  {| world_of := init;
     starter_of := {| main := AtStart; thread_started := false; probe_calls := [] |} |}.

Definition is_socket_connect (c : probe_call) : bool :=
  match c with SocketConnect _ _ => true | _ => false end.

Definition is_probe_backoff (c : probe_call) : bool :=
  match c with ProbeBackoff _ _ => true | _ => false end.

Section Start.

Context {host : Host} {startup : Startup}.

(** [max_tries=10] of the decorator of [wait_for_janus]. *)
Definition probe_max_tries : nat := 10.

(** The body of [wait_for_janus]. *)
Definition wait_for_janus_calls : list probe_call :=
  [Sleep 1; SocketConnect JANUS_SERVER JANUS_WS_PORT].

(** One step of [start], as far as the thread itself goes: the test of the
    external gateway and the start of the supervisor thread; one call of
    [wait_for_janus] under its decorator, which gives up at the tenth
    failure; the call of [start_janus_ws]. *)
Definition starter_step (c : starter) : starter :=
  match main c with
  | AtStart =>
      if external_gateway then
        {| main := AtConnect; thread_started := thread_started c;
           probe_calls := probe_calls c |}
      else
        {| main := AtProbe 1; thread_started := true;
           probe_calls := probe_calls c |}
  | AtProbe tries =>
      if connect_ok tries then
        {| main := AtConnect; thread_started := thread_started c;
           probe_calls := probe_calls c ++ wait_for_janus_calls |}
      else if (tries =? probe_max_tries)%nat then
        {| main := StartRaised OSError; thread_started := thread_started c;
           probe_calls := probe_calls c ++ wait_for_janus_calls |}
      else
        {| main := AtProbe (S tries); thread_started := thread_started c;
           probe_calls := probe_calls c ++ wait_for_janus_calls
                          ++ [ProbeBackoff tries (expo (tries - 1))] |}
  | AtConnect =>
      {| main := StartReturned; thread_started := thread_started c;
         probe_calls := probe_calls c |}
  | StartReturned | StartRaised _ => c
  end.

(** What the step at [pc] does to the object. *)
Definition start_effect (pc : start_pc) : M unit :=
  match pc with
  | AtStart =>
      if external_gateway then
        call (Log Warning
                (Text "Using an external Janus gateway. Not starting the built-in Janus gateway."))
      else ret tt
  | AtConnect => start_janus_ws
  | _ => ret tt
  end.

Definition start_step (s : system) : system :=
  {| world_of := run (start_effect (main (starter_of s))) (world_of s);
     starter_of := starter_step (starter_of s) |}.

(** The threads together, [start] included.  The supervisor thread takes
    steps once it is started; the call of [start_janus_ws] that [start]
    makes is a step of [start]. *)
Inductive sys_action : Type :=
| MainStep                  (* the thread in start() takes a step *)
| Other (a : action).

Definition sys_step (a : sys_action) (s : system) : system :=
  match a with
  | MainStep => start_step s
  | Other SupervisorStep =>
      if thread_started (starter_of s)
      then {| world_of := step SupervisorStep (world_of s);
              starter_of := starter_of s |}
      else s
  | Other CallStartJanusWs => s
  | Other a =>
      {| world_of := step a (world_of s); starter_of := starter_of s |}
  end.

Definition sys_exec (schedule : list sys_action) (s : system) : system :=
  fold_left (fun s a => sys_step a s) schedule s.

End Start.

Definition is_main_step (a : sys_action) : bool :=
  match a with MainStep => true | Other _ => false end.

(** The steps of [start] in a schedule. *)
Definition main_steps (schedule : list sys_action) : nat :=
  List.length (filter is_main_step schedule).

(** The calls of the probe after [k] failed calls of [wait_for_janus], from
    the call number [from]. *)
Fixpoint failed_probes {host : Host} (k from : nat) : list probe_call :=
  match k with
  | O => []
  | S k =>
      [Sleep 1; SocketConnect JANUS_SERVER JANUS_WS_PORT;
       ProbeBackoff from (expo (from - 1))]
      ++ failed_probes k (S from)
  end.

(** The connections tried and the sleeps of the decorator so far. *)
Definition connects_made (c : starter) : nat :=
  List.length (filter is_socket_connect (probe_calls c)).

Definition backoffs_made (c : starter) : nat :=
  List.length (filter is_probe_backoff (probe_calls c)).

(** How far the probe has got at each place of [start]. *)
Definition probe_inv (c : starter) : Prop :=
  match main c with
  | AtStart => connects_made c = 0 /\ backoffs_made c = 0
  | AtProbe tries =>
      1 <= tries <= probe_max_tries /\
      connects_made c = tries - 1 /\ backoffs_made c = tries - 1
  | AtConnect | StartReturned | StartRaised _ =>
      connects_made c <= probe_max_tries /\ backoffs_made c <= probe_max_tries - 1
  end.

(** Concrete surroundings of [start], to run it. *)
Module Boot.

(** A gateway run by someone else. *)
Definition external : Startup :=
  {| external_gateway := true; connect_ok := fun _ => true |}.

(** A built-in gateway whose port never opens. *)
Definition never_up : Startup :=
  {| external_gateway := false; connect_ok := fun _ => false |}.

(** A built-in gateway whose port opens at the third try. *)
Definition up_at_third : Startup :=
  {| external_gateway := false; connect_ok := fun k => (3 <=? k)%nat |}.

End Boot.

(** ** The router when a sink raises *)

(** What the plugin's two sinks do with what they are given: [None] when the
    call returns, the exception when it raises. *)
Class Sinks : Type := {
  on_message_to_plugin_raises : pyval -> option exn;
  send_ws_msg_to_server_raises : pyval -> option exn
}.

(** A call that leaves the file and may raise. *)
Definition call_out (e : event) (raises : option exn) : M unit :=
  call e ;;
  match raises with
  | Some x => raise x
  | None => ret tt
  end.

Module RaisingSinks.

(** [process_janus_msg], the two sinks being free to raise: both calls are
    inside the [try]. *)
Definition process_janus_msg {host : Host} {sinks : Sinks} (raw_msg : string)
    : M pyval :=
  try_except
    (msg <- loads raw_msg ;;
     plugindata <- lift (py_get msg "plugindata" (PyDict [])) ;;
     data <- lift (py_get plugindata "data" (PyDict [])) ;;
     to_plugin <- lift (py_get data "thespaghettidetective" (PyDict [])) ;;
     if truthy to_plugin then
       call (Log Debug (Text "Processing WebRTC data channel msg from client:")) ;;
       call (Log Debug (Value msg)) ;;
       call_out (OnMessageToPlugin to_plugin)
                (on_message_to_plugin_raises to_plugin) ;;
       ret PyNone                                   (* return *)
     else
       call (Log Debug (Text "Relaying Janus msg")) ;;
       call (Log Debug (Value msg)) ;;
       call_out (SendWsMsgToServer (PyDict [("janus", PyStr raw_msg)]))
                (send_ws_msg_to_server_raises (PyDict [("janus", PyStr raw_msg)])) ;;
       ret PyNone)                                  (* falls off the end *)
    (fun _ => call CaptureException ;; ret PyNone).

(** Sinks that always return. *)
Definition quiet : Sinks :=
  {| on_message_to_plugin_raises := fun _ => None;
     send_ws_msg_to_server_raises := fun _ => None |}.

(** A server sink that raises on every message. *)
Definition server_down : Sinks :=
  {| on_message_to_plugin_raises := fun _ => None;
     send_ws_msg_to_server_raises := fun _ => Some OSError |}.

End RaisingSinks.

(** A call of a sink that returned. *)
Definition is_delivery {sinks : Sinks} (e : event) : bool :=
  match e with
  | OnMessageToPlugin v =>
      match on_message_to_plugin_raises v with None => true | Some _ => false end
  | SendWsMsgToServer v =>
      match send_ws_msg_to_server_raises v with None => true | Some _ => false end
  | _ => false
  end.

(** ** A callback overtaken by [shutdown] *)

(** [on_close] runs on the thread of the websocket client, and another thread
    can run between its test of [shutting_down] and what follows.
    [past_test] counts the callbacks that have found the flag false and have
    not gone on yet. *)
Record threads : Type := {
  shared : world;
  past_test : nat
}.

Inductive thread_action : Type :=
| CloseTests           (* an on_close runs lines 119 and 120 *)
| CloseGoesOn          (* an on_close that found the flag false runs lines 121 and 122 *)
| Whole (a : action).  (* a step of [step], in one go *)

Definition is_whole_start_janus_ws (a : thread_action) : bool :=
  match a with
  | Whole a => is_start_janus_ws a
  | _ => false
  end.

Section Threads.

Context {host : Host}.

(** [on_close] up to its test: whether it goes on. *)
Definition on_close_test : M bool :=
  s <- get_self ;;
  set_janus_ws_backoff (more (janus_ws_backoff s)) ;;
  s <- get_self ;;
  ret (negb (shutting_down s)).

(** [on_close] after its test, the flag having been false. *)
Definition on_close_rest : M unit :=
  call (Log Warning (Text "Reconnecting to Janus WS.")) ;;
  start_janus_ws.

Definition thread_step (a : thread_action) (c : threads) : threads :=
  match a with
  | CloseTests =>
      match on_close_test (shared c) with
      | (inl true, w') => {| shared := w'; past_test := S (past_test c) |}
      | (_, w') => {| shared := w'; past_test := past_test c |}
      end
  | CloseGoesOn =>
      match past_test c with
      | S n => {| shared := run on_close_rest (shared c); past_test := n |}
      | O => c
      end
  | Whole a => {| shared := step a (shared c); past_test := past_test c |}
  end.

Definition thread_exec (schedule : list thread_action) (c : threads) : threads :=
  fold_left (fun c a => thread_step a c) schedule c.

End Threads.

(** * Theorems *)

(** The decoder on a text with every kind of value. *)
Example decode_ack :
  Json.json_decode (Json.dq "{'janus': 'ack', 'n': [1, -2.50, true, null]}")
  = Some (PyDict [("janus", PyStr "ack");
                  ("n", PyList [PyInt 1; PyFloat true 250 (-2); PyBool true; PyNone])]).
Proof. vm_compute. reflexivity. Qed.

(** Run the model where it is closed, keeping the tests on what is not. *)
Ltac run_model :=
  cbv beta iota zeta delta
    - [Nat.ltb Nat.eqb String.eqb Z.eqb app String.append max_tries
       truthy is_not_True streaming_failed_alert janus_lines logged unread
       List.length Nat.add json_loads JANUS_DIR JANUS_SERVER pi_version
       disable_video_streaming auth_token setup_result run_result
       setup_cmd janus_cmd failure_trace after_failure count expo Nat.sub].


Section Router.

Context {host : Host}.

Lemma process_janus_msg_malformed raw w :
  json_loads raw = None ->
  process_janus_msg raw w = (inl PyNone, emit [CaptureException] w).
Proof.
  intros Hp. unfold process_janus_msg, try_except, bind, loads.
  rewrite Hp. reflexivity.
Qed.

Ltac open_router Hp :=
  unfold process_janus_msg, try_except, bind, loads, lift;
  rewrite Hp; cbn [ret py_get].

Lemma process_janus_msg_truthy raw msg v w :
  json_loads raw = Some msg -> nested_path msg = Some v -> truthy v = true ->
  process_janus_msg raw w =
  (inl PyNone,
   emit [Log Debug (Text "Processing WebRTC data channel msg from client:");
         Log Debug (Value msg); OnMessageToPlugin v] w).
Proof.
  intros Hp Hn Ht. open_router Hp.
  destruct msg as [ | | | | | | | |d]; try discriminate Hn. cbn in Hn |- *.
  destruct (dict_lookup "plugindata" d) as [[ | | | | | | | |d1]|]; try discriminate Hn.
  cbn in Hn |- *.
  destruct (dict_lookup "data" d1) as [[ | | | | | | | |d2]|]; try discriminate Hn.
  cbn in Hn |- *. rewrite Hn, Ht.
  unfold call, emit, ret; cbn. rewrite <- !app_assoc. reflexivity.
Qed.

Lemma process_janus_msg_falsy raw msg v w :
  json_loads raw = Some msg -> nested_path msg = Some v -> truthy v = false ->
  process_janus_msg raw w =
  (inl PyNone,
   emit [Log Debug (Text "Relaying Janus msg"); Log Debug (Value msg);
         SendWsMsgToServer (PyDict [("janus", PyStr raw)])] w).
Proof.
  intros Hp Hn Ht. open_router Hp.
  destruct msg as [ | | | | | | | |d]; try discriminate Hn. cbn in Hn |- *.
  destruct (dict_lookup "plugindata" d) as [[ | | | | | | | |d1]|]; try discriminate Hn.
  cbn in Hn |- *.
  destruct (dict_lookup "data" d1) as [[ | | | | | | | |d2]|]; try discriminate Hn.
  cbn in Hn |- *. rewrite Hn, Ht.
  unfold call, emit, ret; cbn. rewrite <- !app_assoc. reflexivity.
Qed.

Lemma process_janus_msg_absent raw msg w :
  json_loads raw = Some msg -> is_envelope msg = true -> nested_path msg = None ->
  process_janus_msg raw w =
  (inl PyNone,
   emit [Log Debug (Text "Relaying Janus msg"); Log Debug (Value msg);
         SendWsMsgToServer (PyDict [("janus", PyStr raw)])] w).
Proof.
  intros Hp He Hn. open_router Hp.
  destruct msg as [ | | | | | | | |d]; try discriminate He. cbn in He, Hn |- *.
  destruct (dict_lookup "plugindata" d) as [[ | | | | | | | |d1]|]; try discriminate He;
    cbn in He, Hn |- *.
  - destruct (dict_lookup "data" d1) as [[ | | | | | | | |d2]|]; try discriminate He;
      cbn in Hn |- *.
    + rewrite Hn. unfold call, emit, ret; cbn. rewrite <- !app_assoc. reflexivity.
    + unfold call, emit, ret; cbn. rewrite <- !app_assoc. reflexivity.
  - unfold call, emit, ret; cbn. rewrite <- !app_assoc. reflexivity.
Qed.

Lemma process_janus_msg_returns_None raw w :
  fst (process_janus_msg raw w) = inl PyNone.
Proof.
  unfold process_janus_msg, try_except, bind, loads, lift.
  destruct (json_loads raw) as [msg|]; [|reflexivity]. cbn [ret].
  destruct (py_get msg "plugindata" (PyDict [])) as [a|]; [|reflexivity].
  destruct (py_get a "data" (PyDict [])) as [b|]; [|reflexivity].
  destruct (py_get b "thespaghettidetective" (PyDict [])) as [v|]; [|reflexivity].
  destruct (truthy v); reflexivity.
Qed.

Lemma process_janus_msg_keeps_self raw w :
  self (snd (process_janus_msg raw w)) = self w.
Proof.
  unfold process_janus_msg, try_except, bind, loads, lift.
  destruct (json_loads raw) as [msg|]; [|reflexivity]. cbn [ret].
  destruct (py_get msg "plugindata" (PyDict [])) as [a|]; [|reflexivity].
  destruct (py_get a "data" (PyDict [])) as [b|]; [|reflexivity].
  destruct (py_get b "thespaghettidetective" (PyDict [])) as [v|]; [|reflexivity].
  destruct (truthy v); reflexivity.
Qed.

Lemma on_message_is_process_janus_msg msg w :
  on_message msg w = (inl tt, snd (process_janus_msg msg w)).
Proof.
  unfold on_message, bind.
  pose proof (process_janus_msg_returns_None msg w) as Hr.
  destruct (process_janus_msg msg w) as [r w']. cbn in Hr. subst r. reflexivity.
Qed.

Lemma to_plugin_calls_app t1 t2 :
  to_plugin_calls (t1 ++ t2) = to_plugin_calls t1 ++ to_plugin_calls t2.
Proof. apply flat_map_app. Qed.

Lemma to_server_calls_app t1 t2 :
  to_server_calls (t1 ++ t2) = to_server_calls t1 ++ to_server_calls t2.
Proof. apply flat_map_app. Qed.

Lemma count_app p t1 t2 : count p (t1 ++ t2) = count p t1 + count p t2.
Proof. unfold count. rewrite filter_app, length_app. reflexivity. Qed.

Lemma relayed_only_emit raw msg w :
  relayed_only raw w
    (emit [Log Debug (Text "Relaying Janus msg"); Log Debug (Value msg);
           SendWsMsgToServer (PyDict [("janus", PyStr raw)])] w).
Proof.
  unfold relayed_only, emit; cbn [trace].
  rewrite to_server_calls_app, to_plugin_calls_app. cbn.
  rewrite app_nil_r. split; reflexivity.
Qed.

Lemma routed_to_plugin_only_emit v msg w :
  routed_to_plugin_only v w
    (emit [Log Debug (Text "Processing WebRTC data channel msg from client:");
           Log Debug (Value msg); OnMessageToPlugin v] w).
Proof.
  unfold routed_to_plugin_only, emit; cbn [trace].
  rewrite to_server_calls_app, to_plugin_calls_app. cbn.
  rewrite app_nil_r. split; reflexivity.
Qed.

(** C2, amended.  For a message that parses to a JSON object whose
    [plugindata], if present, is an object whose [data], if present, is an
    object: when the value at [plugindata.data.thespaghettidetective] is
    present and truthy, that value is handed to the plugin's handler and
    nothing is sent to the server; otherwise the raw text is sent to the
    server as [dict(janus=raw_msg)] and nothing is handed to the handler. *)
Theorem process_janus_msg_routes_by_truthiness raw msg w :
  json_loads raw = Some msg ->
  is_envelope msg = true ->
  match nested_path msg with
  | Some v =>
      if truthy v
      then routed_to_plugin_only v w (run (process_janus_msg raw) w)
      else relayed_only raw w (run (process_janus_msg raw) w)
  | None => relayed_only raw w (run (process_janus_msg raw) w)
  end.
Proof.
  intros Hp He. unfold run.
  destruct (nested_path msg) as [v|] eqn:Hn.
  - destruct (truthy v) eqn:Ht.
    + rewrite (process_janus_msg_truthy raw msg v w Hp Hn Ht).
      apply routed_to_plugin_only_emit.
    + rewrite (process_janus_msg_falsy raw msg v w Hp Hn Ht).
      apply relayed_only_emit.
  - rewrite (process_janus_msg_absent raw msg w Hp He Hn).
    apply relayed_only_emit.
Qed.

(** C10.  A message that parses and holds a falsy value at
    [plugindata.data.thespaghettidetective] is relayed: the raw text goes to
    the server sink and the plugin's handler is not called. *)
Theorem falsy_payload_is_relayed raw msg v w :
  json_loads raw = Some msg ->
  nested_path msg = Some v ->
  truthy v = false ->
  relayed_only raw w (run (process_janus_msg raw) w) /\
  count is_to_plugin (trace (step (WsMessage raw) w)) =
    count is_to_plugin (trace w).
Proof.
  intros Hp Hn Ht. unfold step, run.
  rewrite on_message_is_process_janus_msg. cbn [snd].
  rewrite (process_janus_msg_falsy raw msg v w Hp Hn Ht). cbn [snd].
  split; [apply relayed_only_emit|].
  unfold emit; cbn [trace]. rewrite count_app. cbn. lia.
Qed.

(** C6.  A message that does not parse costs one crash report and nothing
    else: no call of the handler, none of the server sink, no exception out
    of the router or of [on_message], and the link held is the same. *)
Theorem malformed_message_is_dropped raw w :
  json_loads raw = None ->
  process_janus_msg raw w = (inl PyNone, emit [CaptureException] w) /\
  on_message raw w = (inl tt, emit [CaptureException] w) /\
  step (WsMessage raw) w = emit [CaptureException] w /\
  count is_crash_report (trace (step (WsMessage raw) w)) =
    S (count is_crash_report (trace w)) /\
  to_plugin_calls (trace (step (WsMessage raw) w)) = to_plugin_calls (trace w) /\
  to_server_calls (trace (step (WsMessage raw) w)) = to_server_calls (trace w) /\
  janus_ws (self (step (WsMessage raw) w)) = janus_ws (self w).
Proof.
  intros Hp.
  pose proof (process_janus_msg_malformed raw w Hp) as Hr.
  assert (Hm : on_message raw w = (inl tt, emit [CaptureException] w)).
  { rewrite on_message_is_process_janus_msg, Hr. reflexivity. }
  unfold step, run. rewrite Hm. cbn [snd emit trace self].
  rewrite count_app, to_plugin_calls_app, to_server_calls_app. cbn.
  rewrite !app_nil_r.
  repeat split; try assumption; try reflexivity. lia.
Qed.

End Router.

(** ** The link *)

Section Link.

Context {host : Host}.

Lemma exec_cons a schedule w : exec (a :: schedule) w = exec schedule (step a w).
Proof. reflexivity. Qed.

(** What [on_close] does while [shutting_down] is false. *)
Lemma on_close_while_running b ws p t pc nws nl out :
  on_close
    {| self := {| janus_ws_backoff := b; janus_ws := ws; janus_proc := p;
                  shutting_down := false |};
       trace := t; sup := pc; ws_created := nws; launched := nl;
       stdout_rest := out |}
  = (inl tt,
     {| self := {| janus_ws_backoff := more b;
                   janus_ws :=
                     Some {| ws_id := nws;
                             url := ("ws://" ++ JANUS_SERVER ++ ":"
                                     ++ JANUS_WS_PORT ++ "/")%string;
                             sock_connected := true |};
                   janus_proc := p; shutting_down := false |};
        trace := t ++ [Log Warning (Text "Reconnecting to Janus WS.");
                       WsNew nws ("ws://" ++ JANUS_SERVER ++ ":"
                                  ++ JANUS_WS_PORT ++ "/")%string];
        sup := pc; ws_created := S nws; launched := nl; stdout_rest := out |}).
Proof.
  unfold on_close, start_janus_ws, bind, call, get, put, get_self, set_self,
    set_janus_ws, set_janus_ws_backoff, with_self, ret.
  cbn. rewrite <- !app_assoc. reflexivity.
Qed.

(** Closes in a row, [shutting_down] being false: one new link and one
    recorded failure for each. *)
Lemma closes_reconnect_once_each k : forall w,
  shutting_down (self w) = false ->
  count is_connect (trace (exec (repeat WsClosed k) w)) =
    count is_connect (trace w) + k /\
  attempts (janus_ws_backoff (self (exec (repeat WsClosed k) w))) =
    attempts (janus_ws_backoff (self w)) + k /\
  shutting_down (self (exec (repeat WsClosed k) w)) = false.
Proof.
  induction k as [|k IH]; intros w Hs.
  - cbn. repeat split; auto.
  - destruct w as [[b ws p sd] t pc nws nl out]. cbn in Hs. subst sd.
    change (repeat WsClosed (S k)) with (WsClosed :: repeat WsClosed k).
    rewrite !exec_cons. unfold step, run.
    rewrite on_close_while_running. cbn [snd].
    match goal with
    | |- context [exec _ ?w1] => destruct (IH w1 eq_refl) as (Hc & Ha & Hf)
    end.
    rewrite Hc, Ha, Hf. cbn [trace self janus_ws_backoff].
    rewrite count_app. cbn. repeat split; lia.
Qed.

(** C5.  A close while [shutting_down] is false records one failure on the
    link's backoff and opens exactly one new link, which becomes the link
    held. *)
Theorem on_close_reconnects_once w :
  shutting_down (self w) = false ->
  fst (on_close w) = inl tt /\
  trace (step WsClosed w) =
    trace w ++ [Log Warning (Text "Reconnecting to Janus WS.");
                WsNew (ws_created w)
                  ("ws://" ++ JANUS_SERVER ++ ":" ++ JANUS_WS_PORT ++ "/")%string] /\
  count is_connect (trace (step WsClosed w)) = S (count is_connect (trace w)) /\
  janus_ws_backoff (self (step WsClosed w)) = more (janus_ws_backoff (self w)) /\
  janus_ws (self (step WsClosed w)) =
    Some {| ws_id := ws_created w;
            url := ("ws://" ++ JANUS_SERVER ++ ":" ++ JANUS_WS_PORT ++ "/")%string;
            sock_connected := true |} /\
  shutting_down (self (step WsClosed w)) = false.
Proof.
  intros Hs. destruct w as [[b ws p sd] t pc nws nl out]. cbn in Hs. subst sd.
  unfold step, run. rewrite on_close_while_running. cbn [fst snd trace self
    janus_ws_backoff janus_ws shutting_down ws_created].
  rewrite count_app. cbn. repeat split; try reflexivity. lia.
Qed.

(** C9.  [pass_to_janus] without a connected link does nothing: no call is
    made, no field changes, no exception is raised. *)
Theorem pass_to_janus_when_not_connected msg w :
  (janus_ws (self w) = None \/
   exists ws, janus_ws (self w) = Some ws /\ sock_connected ws = false) ->
  pass_to_janus msg w = (inl tt, w) /\ step (CallPassToJanus msg) w = w.
Proof.
  intros H. destruct w as [[b ws p sd] t pc nws nl out]. cbn in H.
  unfold step, run, pass_to_janus, connected, bind, get_self; cbn.
  destruct H as [H|(c & H & Hc)]; subst ws; [|rewrite Hc]; split; reflexivity.
Qed.

End Link.

(** C1, on the code: [process_janus_msg] returns [None] on every path, so
    [on_message] never calls [reset]; after one close, a relayed message
    leaves the attempt count at one. *)
Theorem relayed_message_leaves_attempt_count :
  (forall (host : Host) (msg : string) (w : world),
     fst (process_janus_msg msg w) = inl PyNone /\
     janus_ws_backoff (self (step (WsMessage msg) w)) = janus_ws_backoff (self w)) /\
  (let w := @exec Sample.crashing
              [CallStartJanusWs; WsClosed; WsMessage Sample.ack] init in
   count is_connect (trace w) = 2 /\
   to_server_calls (trace w) = [PyDict [("janus", PyStr Sample.ack)]] /\
   attempts (janus_ws_backoff (self w)) = 1).
Proof.
  split.
  - intros host msg w. split; [apply process_janus_msg_returns_None|].
    unfold step, run. rewrite on_message_is_process_janus_msg. cbn [snd].
    rewrite process_janus_msg_keeps_self. reflexivity.
  - vm_compute. repeat split; reflexivity.
Qed.

(** C2 as stated fails twice: the empty object at the path is relayed, not
    handed to the plugin; and the text of an empty list, which parses and has
    no such path, is not relayed (the router reports the [AttributeError] of
    [get] and drops it). *)
Lemma presence_does_not_decide_the_route :
  ~ @routed_by_presence Sample.crashing Sample.empty_payload init /\
  ~ @routed_by_presence Sample.crashing "[]" init.
Proof.
  split; intros H.
  - assert (Hp : @json_loads Sample.crashing Sample.empty_payload =
                 Some (PyDict [("plugindata",
                                PyDict [("data",
                                         PyDict [("thespaghettidetective",
                                                  PyDict [])])])]))
      by (vm_compute; reflexivity).
    specialize (H _ Hp). destruct H as [H _]. vm_compute in H. discriminate H.
  - assert (Hp : @json_loads Sample.crashing "[]" = Some (PyList []))
      by (vm_compute; reflexivity).
    specialize (H _ Hp). destruct H as [H _]. vm_compute in H. discriminate H.
Qed.

Lemma process_janus_msg_routes_by_truthiness_witness :
  @json_loads Sample.crashing Sample.to_plugin_msg =
    Some (PyDict [("plugindata",
                   PyDict [("data",
                            PyDict [("thespaghettidetective",
                                     PyDict [("ref", PyInt 1)])])])]) /\
  routed_to_plugin_only (PyDict [("ref", PyInt 1)]) init
    (run (@process_janus_msg Sample.crashing Sample.to_plugin_msg) init).
Proof.
  assert (Hp : @json_loads Sample.crashing Sample.to_plugin_msg =
    Some (PyDict [("plugindata",
                   PyDict [("data",
                            PyDict [("thespaghettidetective",
                                     PyDict [("ref", PyInt 1)])])])]))
    by (vm_compute; reflexivity).
  split; [exact Hp|].
  exact (@process_janus_msg_routes_by_truthiness Sample.crashing
           Sample.to_plugin_msg _ init Hp eq_refl).
Defined.

Lemma falsy_payload_is_relayed_witness :
  relayed_only Sample.empty_payload init
    (run (@process_janus_msg Sample.crashing Sample.empty_payload) init) /\
  count is_to_plugin (trace (@step Sample.crashing (WsMessage Sample.empty_payload) init)) =
    count is_to_plugin (trace init).
Proof.
  apply (@falsy_payload_is_relayed Sample.crashing Sample.empty_payload
           (PyDict [("plugindata",
                     PyDict [("data",
                              PyDict [("thespaghettidetective", PyDict [])])])])
           (PyDict []) init); vm_compute; reflexivity.
Defined.

Lemma malformed_message_is_dropped_witness :
  @json_loads Sample.crashing "not json" = None /\
  @step Sample.crashing (WsMessage "not json") init = emit [CaptureException] init.
Proof.
  assert (Hp : @json_loads Sample.crashing "not json" = None)
    by (vm_compute; reflexivity).
  split; [exact Hp|].
  apply (@malformed_message_is_dropped Sample.crashing "not json" init Hp).
Defined.

Lemma on_close_reconnects_once_witness :
  let w := @exec Sample.crashing [CallStartJanusWs] init in
  count is_connect (trace (@step Sample.crashing WsClosed w)) = 2 /\
  attempts (janus_ws_backoff (self (@step Sample.crashing WsClosed w))) = 1.
Proof.
  pose proof (@on_close_reconnects_once Sample.crashing
                (@exec Sample.crashing [CallStartJanusWs] init) eq_refl)
    as (_ & _ & Hc & Hb & _).
  split; [exact Hc | rewrite Hb; reflexivity].
Defined.

Lemma pass_to_janus_when_not_connected_witness :
  @step Sample.crashing (CallPassToJanus "{}") init = init.
Proof.
  apply (@pass_to_janus_when_not_connected Sample.crashing "{}" init).
  left. reflexivity.
Defined.

(** ** The supervisor *)

Section Supervisor.

Context {host : Host}.

Lemma supervise_S n w : supervise (S n) w = supervise n (step SupervisorStep w).
Proof. reflexivity. Qed.

Lemma supervise_add a b w : supervise (a + b) w = supervise b (supervise a w).
Proof.
  unfold supervise, exec. rewrite repeat_app, fold_left_app. reflexivity.
Qed.

Lemma step_Finished w : sup w = Finished -> step SupervisorStep w = w.
Proof. destruct w as [s t pc nws nl out]. cbn. intros ->. reflexivity. Qed.

Lemma supervise_Finished n w : sup w = Finished -> supervise n w = w.
Proof.
  intros H. induction n as [|n IH]; [reflexivity|].
  rewrite supervise_S, step_Finished; assumption.
Qed.

Lemma reaches_refl w : reaches w w.
Proof. exists 0. reflexivity. Qed.





(** The turn that leaves the loop: four steps to the [wait()]. *)
Lemma drain_leaves_loop b ws p t tries n nws nl lines :
  match lines with
  | line :: _ => (negb (line =? "") && (n <? 1000)%nat)%bool = false
  | [] => True
  end ->
  supervise 4
    {| self := {| janus_ws_backoff := b; janus_ws := ws; janus_proc := Some p;
                  shutting_down := false |};
       trace := t; sup := AtWhile tries n; ws_created := nws; launched := nl;
       stdout_rest := lines |}
  = {| self := {| janus_ws_backoff := b; janus_ws := ws; janus_proc := Some p;
                  shutting_down := false |};
       trace := t; sup := AtWait tries n;
       ws_created := nws; launched := nl; stdout_rest := tl lines |}.
Proof.
  intros Hc.
  destruct lines as [|line rest]; run_model; [reflexivity|].
  destruct (line =? "") eqn:H1; [reflexivity|].
  destruct (n <? 1000)%nat eqn:H2; [discriminate Hc|reflexivity].
Qed.



(** The [wait()] returns and the call of [run_janus] fails. *)
Lemma wait_then_failure b ws k t tries n nws nl out :
  step SupervisorStep
    {| self := {| janus_ws_backoff := b; janus_ws := ws;
                  janus_proc := Some (Process k); shutting_down := false |};
       trace := t; sup := AtWait tries n; ws_created := nws; launched := nl;
       stdout_rest := out |}
  = {| self := {| janus_ws_backoff := b; janus_ws := ws;
                  janus_proc := Some (Process k); shutting_down := false |};
       trace := t ++ [ProcWait (Process k)] ++ failure_trace tries;
       sup := after_failure tries; ws_created := nws; launched := nl;
       stdout_rest := out |}.
Proof.
  run_model. unfold after_failure, failure_trace.
  destruct (tries =? max_tries)%nat; cbn; rewrite <- ?app_assoc; reflexivity.
Qed.









(** The drain loop logs at most 1000 lines. *)
Lemma logged_at_most_1000 lines : forall n,
  n + List.length (logged n lines) <= Nat.max n 1000.
Proof.
  induction lines as [|line rest IH]; intros n; cbn [logged].
  - cbn. lia.
  - destruct (negb (line =? "") && (n <? 1000)%nat)%bool eqn:Hc.
    + apply andb_true_iff in Hc as [_ Hn]. apply Nat.ltb_lt in Hn.
      specialize (IH (S n)). cbn [List.length]. lia.
    + cbn. lia.
Qed.

(** The end of the gateway's output while [shutting_down] is false: the
    supervisor waits for the exit and the call of [run_janus] fails. *)
Lemma end_of_output_is_a_crash b ws k t tries n nws nl :
  supervise 5
    {| self := {| janus_ws_backoff := b; janus_ws := ws;
                  janus_proc := Some (Process k); shutting_down := false |};
       trace := t; sup := AtWhile tries n; ws_created := nws; launched := nl;
       stdout_rest := [] |}
  = {| self := {| janus_ws_backoff := b; janus_ws := ws;
                  janus_proc := Some (Process k); shutting_down := false |};
       trace := t ++ [ProcWait (Process k)] ++ failure_trace tries;
       sup := after_failure tries; ws_created := nws; launched := nl;
       stdout_rest := [] |}.
Proof.
  change 5 with (4 + 1). rewrite supervise_add.
  rewrite drain_leaves_loop by exact I.
  apply wait_then_failure.
Qed.

(** So does a line that arrives when 1000 lines have been logged. *)
Lemma line_after_1000_is_a_crash b ws k t tries n nws nl line rest :
  1000 <= n ->
  supervise 5
    {| self := {| janus_ws_backoff := b; janus_ws := ws;
                  janus_proc := Some (Process k); shutting_down := false |};
       trace := t; sup := AtWhile tries n; ws_created := nws; launched := nl;
       stdout_rest := line :: rest |}
  = {| self := {| janus_ws_backoff := b; janus_ws := ws;
                  janus_proc := Some (Process k); shutting_down := false |};
       trace := t ++ [ProcWait (Process k)] ++ failure_trace tries;
       sup := after_failure tries; ws_created := nws; launched := nl;
       stdout_rest := rest |}.
Proof.
  intros Hn. change 5 with (4 + 1). rewrite supervise_add.
  rewrite drain_leaves_loop.
  - apply wait_then_failure.
  - apply andb_false_iff. right. apply Nat.ltb_ge. exact Hn.
Qed.

(** The step that runs [setup_janus_config]. *)
Lemma setup_step s t nws nl out rc stdoutdata :
  setup_result = Some (rc, stdoutdata) ->
  step SupervisorStep
    {| self := s; trace := t; sup := AtSetup; ws_created := nws; launched := nl;
       stdout_rest := out |}
  = {| self := s;
       trace := t ++ PopenSetup setup_cmd
                 :: (if (rc =? 0)%Z then []
                     else [Log Warning (Raised (JanusNotSupportedException stdoutdata))]);
       sup := if (rc =? 0)%Z then AtRunJanus 1 else Finished;
       ws_created := nws; launched := nl; stdout_rest := out |}.
Proof.
  intros Hs.
  run_model. rewrite Hs.
  destruct (rc =? 0)%Z; cbn - [String.append]; rewrite <- ?app_assoc; reflexivity.
Qed.

(** C3, amended.  When [setup.sh] exits non-zero the supervisor logs the
    failure as a warning and returns: nothing is launched, the retry
    decorator is not entered, and neither a crash report nor an alert is
    made. *)
Theorem provisioning_failure_is_only_logged rc stdoutdata w :
  setup_result = Some (rc, stdoutdata) ->
  rc <> 0%Z ->
  sup w = AtSetup ->
  forall n,
    let w' := supervise (S n) w in
    sup w' = Finished /\
    trace w' =
      trace w ++ [PopenSetup setup_cmd;
                  Log Warning (Raised (JanusNotSupportedException stdoutdata))] /\
    count is_launch (trace w') = count is_launch (trace w) /\
    count is_sleep (trace w') = count is_sleep (trace w) /\
    count is_crash_report (trace w') = count is_crash_report (trace w) /\
    count is_alert (trace w') = count is_alert (trace w).
Proof.
  intros Hs Hrc Hpc n. destruct w as [s t pc nws nl out]. cbn in Hpc. subst pc.
  cbv zeta. rewrite supervise_S, (setup_step _ _ _ _ _ _ _ Hs).
  apply Z.eqb_neq in Hrc. rewrite Hrc.
  rewrite supervise_Finished by reflexivity. cbn [sup trace].
  split; [reflexivity|]. split; [reflexivity|].
  rewrite !count_app. cbn. repeat split; lia.
Qed.


End Supervisor.

Section Shutdown.

Context {host : Host}.

Ltac split_case :=
  match goal with
  | |- context [match ?x with _ => _ end] =>
      lazymatch x with
      | context [match _ with _ => _ end] => fail
      | _ => destruct x
      end
  end.

Ltac run_cases := run_model; repeat (split_case; run_model).

(** A step of the supervisor changes neither the link nor its backoff nor
    the flag. *)
Lemma supervisor_step_keeps_link w :
  janus_ws_backoff (self (step SupervisorStep w)) = janus_ws_backoff (self w) /\
  janus_ws (self (step SupervisorStep w)) = janus_ws (self w) /\
  shutting_down (self (step SupervisorStep w)) = shutting_down (self w).
Proof.
  destruct w as [[b ws p sd] t pc nws nl out].
  destruct pc; run_cases; repeat split; reflexivity.
Qed.

(** Once set, [shutting_down] stays set. *)
Lemma shutting_down_is_stable a w :
  shutting_down (self w) = true -> shutting_down (self (step a w)) = true.
Proof.
  intros H. destruct a.
  - destruct (supervisor_step_keeps_link w) as (_ & _ & Hs). rewrite Hs. exact H.
  - destruct w as [[b ws p sd] t pc nws nl out]. cbn in H. subst sd. reflexivity.
  - destruct w as [[b ws p sd] t pc nws nl out]. run_cases; reflexivity.
  - destruct w as [[b ws p sd] t pc nws nl out]. cbn in H. subst sd.
    run_cases; reflexivity.
  - destruct w as [[b ws p sd] t pc nws nl out]. cbn in H. subst sd.
    run_cases; reflexivity.
  - unfold step, run. rewrite on_message_is_process_janus_msg. cbn [snd].
    rewrite process_janus_msg_keeps_self. exact H.
Qed.

(** A close after [shutdown] records the failure and opens no link. *)
Lemma on_close_after_shutdown w :
  shutting_down (self w) = true ->
  trace (step WsClosed w) = trace w /\
  janus_ws (self (step WsClosed w)) = janus_ws (self w).
Proof.
  intros H. destruct w as [[b ws p sd] t pc nws nl out]. cbn in H. subst sd.
  split; reflexivity.
Qed.

(** Inside the drain loop the flag is honoured: with [shutting_down] set, the
    tests of the loop lead to the end of the thread and nothing is
    launched. *)
Lemma drain_loop_honours_shutdown w tries n :
  shutting_down (self w) = true ->
  (sup w = AtWhile tries n -> step SupervisorStep w = with_sup Finished w) /\
  (sup w = AtElif tries n -> step SupervisorStep w = with_sup (AtWhile tries n) w).
Proof.
  intros H. destruct w as [[b ws p sd] t pc nws nl out]. cbn in H. subst sd.
  split; cbn; intros ->; reflexivity.
Qed.

(** A pending call of [run_janus] launches the gateway whatever the flag. *)
Lemma pending_retry_launches w tries :
  sup w = AtRunJanus tries ->
  count is_launch (trace (step SupervisorStep w)) = S (count is_launch (trace w)).
Proof.
  destruct w as [[b ws p sd] t pc nws nl out]. cbn [sup]. intros ->.
  run_cases; rewrite !count_app; cbn; lia.
Qed.

(** Only a close changes the backoff of the link. *)
Lemma backoff_changes_only_on_close a w :
  a <> WsClosed ->
  janus_ws_backoff (self (step a w)) = janus_ws_backoff (self w).
Proof.
  intros Ha. destruct a; try congruence.
  - apply supervisor_step_keeps_link.
  - destruct w as [[b ws p sd] t pc nws nl out]. reflexivity.
  - destruct w as [[b ws p sd] t pc nws nl out]. run_cases; reflexivity.
  - destruct w as [[b ws p sd] t pc nws nl out]. run_cases; reflexivity.
  - unfold step, run. rewrite on_message_is_process_janus_msg. cbn [snd].
    rewrite process_janus_msg_keeps_self. reflexivity.
Qed.

Lemma backoff_advances_on_close w :
  attempts (janus_ws_backoff (self (step WsClosed w))) =
  S (attempts (janus_ws_backoff (self w))).
Proof.
  destruct w as [[b ws p sd] t pc nws nl out]. destruct sd; reflexivity.
Qed.

End Shutdown.

(** C4, on the code: the gateway exits, the retry decorator sleeps,
    [shutdown()] is called during the sleep, and the retry launches the
    gateway again with [shutting_down] set; the new process is never
    terminated. *)
Theorem gateway_is_relaunched_after_shutdown :
  let w := @exec Sample.crashing (repeat SupervisorStep 7 ++ [CallShutdown]) init in
  let w' := @exec Sample.crashing [SupervisorStep; SupervisorStep] w in
  shutting_down (self w) = true /\
  sup w = AtRunJanus 2 /\
  count is_launch (trace w) = 1 /\
  janus_proc (self w) = None /\
  trace w' = trace w ++ [Log Debug (Text "Popen: /plugin/bin/janus/run.sh");
                         PopenRun "/plugin/bin/janus/run.sh"] /\
  sup w' = Finished /\
  janus_proc (self w') = Some (Process 1).
Proof. vm_compute. repeat split; reflexivity. Qed.

(** ** The gateway that keeps running *)

Section Stall.

Context {host : Host}.
Variable capacity : N.

Lemma pipe_exec_cons a schedule r :
  pipe_exec capacity (a :: schedule) r
  = pipe_exec capacity schedule (pipe_step capacity a r).
Proof. reflexivity. Qed.

Lemma pipe_bytes_app p q : pipe_bytes (p ++ q) = (pipe_bytes p + pipe_bytes q)%N.
Proof.
  induction p as [|l p IH]; cbn [app pipe_bytes fold_right].
  - reflexivity.
  - fold (pipe_bytes (p ++ q)). fold (pipe_bytes p). rewrite IH. lia.
Qed.

Lemma pipe_bytes_skipn d : forall l, (pipe_bytes (skipn d l) <= pipe_bytes l)%N.
Proof.
  induction d as [|d IH]; intros [|x l]; cbn [skipn]; try lia.
  specialize (IH l). cbn [pipe_bytes fold_right]. fold (pipe_bytes l). lia.
Qed.

Lemma pipe_bytes_skipn_le k m l :
  k <= m -> (pipe_bytes (skipn m l) <= pipe_bytes (skipn k l))%N.
Proof.
  intros Hk. replace m with ((m - k) + k) by lia.
  rewrite <- skipn_skipn. apply pipe_bytes_skipn.
Qed.

Lemma skipn_cons_firstn {A} k (l : list A) x rest :
  skipn k l = x :: rest ->
  firstn (S k) l = firstn k l ++ [x] /\ skipn (S k) l = rest.
Proof.
  revert l. induction k as [|k IH]; intros [|y l] H; cbn in H; try discriminate.
  - inversion H. subst. split; reflexivity.
  - destruct (IH _ H) as [H1 H2]. split.
    + cbn [firstn] in *. cbn [app]. f_equal. exact H1.
    + exact H2.
Qed.

Lemma skipn_In {A} k (l : list A) x rest : skipn k l = x :: rest -> In x l.
Proof.
  intros H. rewrite <- (firstn_skipn k l). apply in_or_app. right.
  rewrite H. left. reflexivity.
Qed.

(** While it is drained that way, a gateway with more to write after line
    1001 than the pipe holds has not written everything. *)
Lemma draining_gateway_runs lines t s r :
  (capacity < pipe_bytes (skipn 1001 lines))%N ->
  draining capacity lines t s r -> unwritten r <> [].
Proof.
  intros Hcap (_ & Hpipe & k & Hk & _ & Hpc) Hu.
  rewrite Hu, app_nil_r in Hk. rewrite Hk in Hpipe.
  assert (k <= 1001) as Hle by (destruct (sup (seen r)); lia).
  pose proof (pipe_bytes_skipn_le k 1001 lines Hle). lia.
Qed.

(** The drain goes on that way, whoever moves. *)
Lemma draining_step lines t s p a r :
  janus_proc s = Some p ->
  shutting_down s = false ->
  Forall (fun line => line <> "") lines ->
  (capacity < pipe_bytes (skipn 1001 lines))%N ->
  draining capacity lines t s r ->
  draining capacity lines t s (pipe_step capacity a r).
Proof.
  intros Hp Hflag Hlines Hcap Hinv.
  pose proof (draining_gateway_runs _ _ _ _ Hcap Hinv) as Hrun.
  destruct Hinv as (Hs & Hpipe & k & Hk & Ht & Hpc).
  destruct r as [[s' tr pc nws nl pipe] u].
  cbn [seen unwritten self trace sup stdout_rest] in Hs, Hpipe, Hk, Ht, Hpc, Hrun.
  subst s'. destruct s as [b ws proc flag]. cbn in Hp, Hflag. subst proc flag.
  destruct u as [|l u]; [contradiction|].
  destruct a; cbn [pipe_step].
  - unfold gateway_writes. cbn [unwritten seen stdout_rest].
    destruct (N.leb_spec (pipe_bytes (pipe ++ [l])) capacity) as [Hroom|_].
    + refine (conj eq_refl (conj Hroom (ex_intro _ k (conj _ (conj Ht Hpc))))).
      cbn [seen unwritten with_stdout stdout_rest].
      rewrite <- app_assoc. exact Hk.
    + exact (conj eq_refl (conj Hpipe (ex_intro _ k (conj Hk (conj Ht Hpc))))).
  - unfold supervisor_runs, supervisor_blocked.
    cbn [unwritten seen sup self stdout_rest janus_proc].
    destruct pc as [|tries|tries n|tries n|tries n|tries n|tries n|];
      try contradiction.
    + (* while not self.shutting_down *)
      run_model.
      exact (conj eq_refl (conj Hpipe (ex_intro _ k (conj Hk (conj Ht Hpc))))).
    + run_model.
      exact (conj eq_refl (conj Hpipe (ex_intro _ k (conj Hk (conj Ht Hpc))))).
    + (* readline() *)
      destruct Hpc as [-> Hle].
      destruct pipe as [|line rest].
      * exact (conj eq_refl (conj Hpipe
                 (ex_intro _ k (conj Hk (conj Ht (conj eq_refl Hle)))))).
      * cbn [app] in Hk. symmetry in Hk.
        destruct (skipn_cons_firstn _ _ _ _ Hk) as [Hfirst Hskip].
        assert (line <> "") as Hline.
        { rewrite Forall_forall in Hlines. apply Hlines.
          eapply skipn_In. exact Hk. }
        apply String.eqb_neq in Hline.
        assert (pipe_bytes rest <= capacity)%N as Hpipe'.
        { cbn [pipe_bytes fold_right] in Hpipe. fold (pipe_bytes rest) in Hpipe. lia. }
        remember (draining capacity lines t
                    {| janus_ws_backoff := b; janus_ws := ws;
                       janus_proc := Some p; shutting_down := false |})
          as holds eqn:Hholds.
        run_model. rewrite Hline. subst holds.
        destruct (k <? 1000)%nat eqn:Hlt.
        -- apply Nat.ltb_lt in Hlt.
           refine (conj eq_refl (conj Hpipe'
                     (ex_intro _ (S k) (conj (eq_sym Hskip) (conj _ (conj eq_refl Hlt)))))).
           rewrite Ht, <- app_assoc. f_equal.
           replace (Nat.min (S k) 1000) with (S k) by lia.
           replace (Nat.min k 1000) with k by lia.
           rewrite Hfirst. unfold janus_lines. rewrite map_app. reflexivity.
        -- apply Nat.ltb_ge in Hlt.
           assert (k = 1000) as -> by lia.
           refine (conj eq_refl (conj Hpipe'
                     (ex_intro _ 1001 (conj (eq_sym Hskip) (conj _ (conj eq_refl eq_refl)))))).
           cbn [trace seen]. rewrite Ht. reflexivity.
    + (* elif not self.shutting_down *)
      run_model.
      exact (conj eq_refl (conj Hpipe (ex_intro _ k (conj Hk (conj Ht Hpc))))).
    + (* wait() *)
      exact (conj eq_refl (conj Hpipe (ex_intro _ k (conj Hk (conj Ht Hpc))))).
Qed.

Lemma draining_exec lines t s p schedule : forall r,
  janus_proc s = Some p ->
  shutting_down s = false ->
  Forall (fun line => line <> "") lines ->
  (capacity < pipe_bytes (skipn 1001 lines))%N ->
  draining capacity lines t s r ->
  draining capacity lines t s (pipe_exec capacity schedule r).
Proof.
  induction schedule as [|a schedule IH]; intros r Hp Hflag Hlines Hcap Hinv.
  - exact Hinv.
  - rewrite pipe_exec_cons. apply IH; try assumption.
    eapply draining_step; eassumption.
Qed.

(** Blocked in [wait()] while the gateway is blocked in its [write]: nothing
    moves any more. *)
Lemma stalled_for_good r schedule :
  stalled capacity r = true -> pipe_exec capacity schedule r = r.
Proof.
  unfold stalled. intros Hst.
  destruct (sup (seen r)) eqn:Hpc; try discriminate Hst.
  destruct (janus_proc (self (seen r))) eqn:Hp; try discriminate Hst.
  destruct (unwritten r) as [|line rest] eqn:Hu; try discriminate Hst.
  apply N.ltb_lt in Hst.
  induction schedule as [|a schedule IH]; [reflexivity|].
  rewrite pipe_exec_cons.
  replace (pipe_step capacity a r) with r; [exact IH|].
  destruct a; cbn [pipe_step].
  - unfold gateway_writes. rewrite Hu.
    destruct (N.leb_spec (pipe_bytes (stdout_rest (seen r) ++ [line])) capacity);
      [lia|reflexivity].
  - unfold supervisor_runs, supervisor_blocked. rewrite Hu, Hpc, Hp. reflexivity.
Qed.

(** C7, on the code: the lines after the first 1000 are not discarded.  Take
    a gateway that is running, [shutting_down] being false, whose lines after
    the 1001st are more than the pipe holds.  Whatever the order in which the
    gateway and the supervisor thread move, the supervisor never reads more
    than 1001 lines: what follows stays in the pipe or unwritten, so the
    gateway never gets to write its last line and never exits; the
    supervisor makes no call but the logs of the first lines, at most 1000,
    and never leaves the loop: its [wait()] does not return and the failure
    is not raised. *)
Theorem gateway_stalls_after_line_1001 lines r tries p schedule :
  sup (seen r) = AtWhile tries 0 ->
  stdout_rest (seen r) = [] ->
  unwritten r = lines ->
  janus_proc (self (seen r)) = Some p ->
  shutting_down (self (seen r)) = false ->
  Forall (fun line => line <> "") lines ->
  (capacity < pipe_bytes (skipn 1001 lines))%N ->
  let r' := pipe_exec capacity schedule r in
  unwritten r' <> [] /\
  is_draining (sup (seen r')) = true /\
  exists k,
    k <= 1001 /\
    stdout_rest (seen r') ++ unwritten r' = skipn k lines /\
    trace (seen r') = trace (seen r) ++ janus_lines (firstn (Nat.min k 1000) lines).
Proof.
  intros Hpc Hpipe Hu Hp Hflag Hlines Hcap r'.
  assert (draining capacity lines (trace (seen r)) (self (seen r)) r') as Hinv.
  { eapply draining_exec; try eassumption.
    repeat split.
    - rewrite Hpipe. cbn. lia.
    - exists 0. rewrite Hpipe, Hu, Hpc. cbn. rewrite app_nil_r.
      repeat split; lia. }
  split; [eapply draining_gateway_runs; eassumption|].
  destruct Hinv as (_ & _ & k & Hk & Ht & Hsup).
  split; [destruct (sup (seen r')); try contradiction; reflexivity|].
  exists k. repeat split; try assumption.
  destruct (sup (seen r')); lia.
Qed.

End Stall.

(** When the gateway has exited, the supervisor thread runs as it does in
    the sections above. *)
Lemma exited_gateway_is_read_as_above {host : Host} capacity r :
  unwritten r = [] ->
  (forall tries, sup (seen r) <> AtRunJanus tries) ->
  supervisor_runs r = {| seen := step SupervisorStep (seen r); unwritten := [] |}
  /\ gateway_writes capacity r = r.
Proof.
  intros Hu Hpc. unfold supervisor_runs, supervisor_blocked, gateway_writes.
  rewrite Hu. split; [|reflexivity].
  destruct (sup (seen r)) eqn:E; try reflexivity.
  exfalso. eapply Hpc. reflexivity.
Qed.

(** A gateway that keeps writing stalls on a pipe of 64 KiB: the supervisor
    is in [wait()], which has not returned, it has logged 1000 lines and
    made 1003 calls in all, 1024 lines fill the pipe, 975 are still to be
    written, and nothing moves any more. *)
Example talkative_gateway_stalls :
  stall_report 65536
    (@pipe_exec Sample.talkative 65536 (read_then_left 1001 1025)
       (@gateway_launched Sample.talkative 65536))
  = (AtWait 1 1000, 1000, 1003, 1024, 975, true).
Proof. vm_compute. reflexivity. Qed.

(** C3 as stated fails: no alert is enqueued when [setup.sh] exits with 1. *)
Lemma unsupported_platform_raises_no_alert :
  ~ @provisioning_failure_alerts_once Sample.unsupported init.
Proof.
  intros (_ & _ & _ & _ & H). vm_compute in H. discriminate H.
Qed.

Lemma provisioning_failure_is_only_logged_witness :
  sup (@supervise Sample.unsupported 1 init) = Finished /\
  count is_launch (trace (@supervise Sample.unsupported 1 init)) = 0 /\
  count is_alert (trace (@supervise Sample.unsupported 1 init)) = 0.
Proof.
  assert (Hrc : 1%Z <> 0%Z) by discriminate.
  pose proof (@provisioning_failure_is_only_logged Sample.unsupported
                1%Z "unsupported platform" init eq_refl Hrc eq_refl 0)
    as (Hf & _ & Hl & _ & _ & Ha).
  repeat split; assumption.
Defined.


Lemma gateway_stalls_after_line_1001_witness :
  let r := @pipe_exec Sample.talkative 65536 (read_then_left 1001 1025)
             (@gateway_launched Sample.talkative 65536) in
  unwritten r <> [] /\ is_draining (sup (seen r)) = true.
Proof.
  intros r.
  destruct (@gateway_stalls_after_line_1001 Sample.talkative 65536
              (repeat "[janus] Sending a keyframe request to the streaming mountpoint.
" (3 * 1000))
              (@gateway_launched Sample.talkative 65536) 1 (Process 0)
              (read_then_left 1001 1025)) as (H1 & H2 & _).
  - vm_compute. reflexivity.
  - vm_compute. reflexivity.
  - vm_compute. reflexivity.
  - vm_compute. reflexivity.
  - vm_compute. reflexivity.
  - apply Forall_forall. intros line Hin. apply repeat_spec in Hin.
    subst line. discriminate.
  - vm_compute. reflexivity.
  - split; assumption.
Defined.

(** * More about the router *)

Section RouterCases.

Context {host : Host}.

(** The three ways [process_janus_msg] ends. *)
Lemma process_janus_msg_cases raw w :
  exists evs,
    process_janus_msg raw w = (inl PyNone, emit evs w) /\
    (evs = [CaptureException] \/
     (exists msg v,
        evs = [Log Debug (Text "Processing WebRTC data channel msg from client:");
               Log Debug (Value msg); OnMessageToPlugin v]) \/
     (exists msg,
        evs = [Log Debug (Text "Relaying Janus msg"); Log Debug (Value msg);
               SendWsMsgToServer (PyDict [("janus", PyStr raw)])])).
Proof.
  unfold process_janus_msg, try_except, bind, loads, lift.
  destruct (json_loads raw) as [msg|]; [|eexists; split; [reflexivity|auto]].
  cbn [ret].
  destruct (py_get msg "plugindata" (PyDict [])) as [a|];
    [|eexists; split; [reflexivity|auto]].
  destruct (py_get a "data" (PyDict [])) as [b|];
    [|eexists; split; [reflexivity|auto]].
  destruct (py_get b "thespaghettidetective" (PyDict [])) as [v|];
    [|eexists; split; [reflexivity|auto]].
  destruct (truthy v); eexists; (split;
    [unfold call, emit, ret; cbn; rewrite <- !app_assoc; reflexivity|]).
  - right; left. do 2 eexists. reflexivity.
  - right; right. eexists. reflexivity.
Qed.


Lemma process_janus_msg_non_envelope raw msg w :
  json_loads raw = Some msg ->
  is_envelope msg = false ->
  process_janus_msg raw w = (inl PyNone, emit [CaptureException] w).
Proof.
  intros Hp He.
  unfold process_janus_msg, try_except, bind, loads, lift.
  rewrite Hp. cbn [ret py_get].
  destruct msg as [ | | | | | | | |d]; try reflexivity. cbn in He |- *.
  destruct (dict_lookup "plugindata" d) as [[ | | | | | | | |d1]|];
    try discriminate He; try reflexivity.
  cbn in He |- *.
  destruct (dict_lookup "data" d1) as [[ | | | | | | | |d2]|];
    try discriminate He; reflexivity.
Qed.

(** X2.  A text that parses to something other than an envelope (not a JSON
    object, or an object whose [plugindata] or [plugindata.data] is not an
    object) makes [get] raise inside the router: one crash report, and the
    message goes neither to the plugin nor to the server. *)
Theorem non_envelope_is_reported_and_dropped raw msg w :
  json_loads raw = Some msg ->
  is_envelope msg = false ->
  process_janus_msg raw w = (inl PyNone, emit [CaptureException] w) /\
  step (WsMessage raw) w = emit [CaptureException] w.
Proof.
  intros Hp He.
  pose proof (process_janus_msg_non_envelope raw msg w Hp He) as Hr.
  split; [exact Hr|].
  unfold step, run. rewrite on_message_is_process_janus_msg, Hr. reflexivity.
Qed.

(** What a message adds to the calls of the two sinks. *)
Lemma message_step_calls raw w :
  to_server_calls (trace (step (WsMessage raw) w)) =
    to_server_calls (trace w) ++ relayed raw /\
  to_plugin_calls (trace (step (WsMessage raw) w)) =
    to_plugin_calls (trace w) ++ handed_over raw.
Proof.
  unfold step, run. rewrite on_message_is_process_janus_msg.
  unfold relayed, handed_over, route_of.
  destruct (json_loads raw) as [msg|] eqn:Hp.
  - destruct (is_envelope msg) eqn:He.
    + destruct (nested_path msg) as [v|] eqn:Hn.
      * destruct (truthy v) eqn:Ht.
        -- rewrite (process_janus_msg_truthy raw msg v w Hp Hn Ht).
           cbn [snd emit trace].
           rewrite to_server_calls_app, to_plugin_calls_app. split; reflexivity.
        -- rewrite (process_janus_msg_falsy raw msg v w Hp Hn Ht).
           cbn [snd emit trace].
           rewrite to_server_calls_app, to_plugin_calls_app. split; reflexivity.
      * rewrite (process_janus_msg_absent raw msg w Hp He Hn).
        cbn [snd emit trace].
        rewrite to_server_calls_app, to_plugin_calls_app. split; reflexivity.
    + rewrite (process_janus_msg_non_envelope raw msg w Hp He).
      cbn [snd emit trace].
      rewrite to_server_calls_app, to_plugin_calls_app. split; reflexivity.
  - rewrite (process_janus_msg_malformed raw w Hp).
    cbn [snd emit trace].
    rewrite to_server_calls_app, to_plugin_calls_app. split; reflexivity.
Qed.

End RouterCases.

Lemma non_envelope_is_reported_and_dropped_witness :
  @step Sample.crashing (WsMessage (Json.dq "{'plugindata': 1}")) init
  = emit [CaptureException] init.
Proof.
  apply (@non_envelope_is_reported_and_dropped Sample.crashing
           (Json.dq "{'plugindata': 1}") (PyDict [("plugindata", PyInt 1)]) init);
    vm_compute; reflexivity.
Defined.

(** * The router and sinks that raise *)

Section RouterSinks.

Context {host : Host} {sinks : Sinks}.

(** X1.  Whatever the message and whatever the sinks do, the router returns
    [None] without raising and changes no field of the object.  It calls at
    most one sink, once, and exactly one of two things happens: a sink got
    the message and returned, or a crash is reported, once.  Its other calls
    are debug logs. *)
Theorem process_janus_msg_contains_what_is_raised raw w :
  exists evs,
    RaisingSinks.process_janus_msg raw w = (inl PyNone, emit evs w) /\
    count is_to_plugin evs + count is_to_server evs <= 1 /\
    count is_delivery evs + count is_crash_report evs = 1 /\
    count is_debug_log evs + count is_dispatch evs = List.length evs.
Proof.
  unfold RaisingSinks.process_janus_msg, try_except, bind, loads, lift.
  destruct (json_loads raw) as [msg|];
    [|exists [CaptureException]; repeat split; cbn; lia].
  cbn [ret].
  destruct (py_get msg "plugindata" (PyDict [])) as [a|];
    [|exists [CaptureException]; repeat split; cbn; lia].
  destruct (py_get a "data" (PyDict [])) as [b|];
    [|exists [CaptureException]; repeat split; cbn; lia].
  destruct (py_get b "thespaghettidetective" (PyDict [])) as [v|];
    [|exists [CaptureException]; repeat split; cbn; lia].
  destruct (truthy v).
  - destruct (on_message_to_plugin_raises v) as [x|] eqn:Hx.
    + exists [Log Debug (Text "Processing WebRTC data channel msg from client:");
              Log Debug (Value msg); OnMessageToPlugin v; CaptureException].
      split; [|unfold count; cbn - [on_message_to_plugin_raises send_ws_msg_to_server_raises]; rewrite ?Hx; cbn; lia].
      unfold call_out, call, bind, raise, emit, ret.
      cbn - [on_message_to_plugin_raises send_ws_msg_to_server_raises]. rewrite ?Hx. cbn.
      rewrite <- !app_assoc. reflexivity.
    + exists [Log Debug (Text "Processing WebRTC data channel msg from client:");
              Log Debug (Value msg); OnMessageToPlugin v].
      split; [|unfold count; cbn - [on_message_to_plugin_raises send_ws_msg_to_server_raises]; rewrite ?Hx; cbn; lia].
      unfold call_out, call, bind, raise, emit, ret.
      cbn - [on_message_to_plugin_raises send_ws_msg_to_server_raises]. rewrite ?Hx. cbn.
      rewrite <- !app_assoc. reflexivity.
  - destruct (send_ws_msg_to_server_raises (PyDict [("janus", PyStr raw)]))
      as [x|] eqn:Hx.
    + exists [Log Debug (Text "Relaying Janus msg"); Log Debug (Value msg);
              SendWsMsgToServer (PyDict [("janus", PyStr raw)]); CaptureException].
      split; [|unfold count; cbn - [on_message_to_plugin_raises send_ws_msg_to_server_raises]; rewrite ?Hx; cbn; lia].
      unfold call_out, call, bind, raise, emit, ret.
      cbn - [on_message_to_plugin_raises send_ws_msg_to_server_raises]. rewrite ?Hx. cbn.
      rewrite <- !app_assoc. reflexivity.
    + exists [Log Debug (Text "Relaying Janus msg"); Log Debug (Value msg);
              SendWsMsgToServer (PyDict [("janus", PyStr raw)])].
      split; [|unfold count; cbn - [on_message_to_plugin_raises send_ws_msg_to_server_raises]; rewrite ?Hx; cbn; lia].
      unfold call_out, call, bind, raise, emit, ret.
      cbn - [on_message_to_plugin_raises send_ws_msg_to_server_raises]. rewrite ?Hx. cbn.
      rewrite <- !app_assoc. reflexivity.
Qed.

End RouterSinks.

(** With sinks that return, this is the router of the sections above. *)
Lemma process_janus_msg_with_quiet_sinks {host : Host} raw w :
  @RaisingSinks.process_janus_msg host RaisingSinks.quiet raw w
  = process_janus_msg raw w.
Proof.
  unfold RaisingSinks.process_janus_msg, process_janus_msg, try_except, bind,
    loads, lift.
  destruct (json_loads raw) as [msg|]; [|reflexivity].
  cbn [ret].
  destruct (py_get msg "plugindata" (PyDict [])) as [a|]; [|reflexivity].
  destruct (py_get a "data" (PyDict [])) as [b|]; [|reflexivity].
  destruct (py_get b "thespaghettidetective" (PyDict [])) as [v|]; [|reflexivity].
  destruct (truthy v); reflexivity.
Qed.

(** A relay that fails is reported and goes no further. *)
Example failed_relay_is_reported :
  @RaisingSinks.process_janus_msg Sample.crashing RaisingSinks.server_down
    Sample.ack init
  = (inl PyNone,
     emit [Log Debug (Text "Relaying Janus msg");
           Log Debug (Value (PyDict [("janus", PyStr "ack");
                                     ("transaction", PyStr "abc")]));
           SendWsMsgToServer (PyDict [("janus", PyStr Sample.ack)]);
           CaptureException] init).
Proof. vm_compute. reflexivity. Qed.

(** * More about the link and [shutdown] *)

Ltac case_split :=
  match goal with
  | |- context [match ?x with _ => _ end] =>
      lazymatch x with
      | context [match _ with _ => _ end] => fail
      | _ => destruct x eqn:?
      end
  end.

Ltac run_all := run_model; repeat (case_split; run_model).

Section LinkLife.

Context {host : Host}.

(** What a step of the supervisor leaves alone, and the kind of calls it
    makes. *)
Lemma supervisor_step_frame w :
  exists evs,
    trace (step SupervisorStep w) = trace w ++ evs /\
    Forall (fun e => is_connect e = false /\ is_send e = false /\
                     is_to_plugin e = false /\ is_to_server e = false) evs /\
    ws_created (step SupervisorStep w) = ws_created w /\
    self (step SupervisorStep w) =
      {| janus_ws_backoff := janus_ws_backoff (self w);
         janus_ws := janus_ws (self w);
         janus_proc := janus_proc (self (step SupervisorStep w));
         shutting_down := shutting_down (self w) |}.
Proof.
  destruct w as [[b ws p sd] t pc nws nl out].
  destruct pc; run_all;
    (eexists; split;
     [first [symmetry; apply app_nil_r
            | rewrite <- ?app_assoc; reflexivity]
     | split; [repeat constructor | split; reflexivity]]).
Qed.

Lemma count_none p evs :
  Forall (fun e => p e = false) evs -> count p evs = 0.
Proof.
  induction 1 as [|e evs He _ IH]; [reflexivity|].
  unfold count in *. cbn. rewrite He. exact IH.
Qed.

Lemma supervisor_step_counts w :
  count is_connect (trace (step SupervisorStep w)) = count is_connect (trace w) /\
  count is_send (trace (step SupervisorStep w)) = count is_send (trace w) /\
  count is_to_plugin (trace (step SupervisorStep w)) = count is_to_plugin (trace w) /\
  count is_to_server (trace (step SupervisorStep w)) = count is_to_server (trace w).
Proof.
  destruct (supervisor_step_frame w) as (evs & Ht & Hall & _).
  rewrite Ht, !count_app.
  rewrite (count_none is_connect evs), (count_none is_send evs),
    (count_none is_to_plugin evs), (count_none is_to_server evs);
    [repeat split; lia | | | |];
    (eapply Forall_impl; [|exact Hall]); cbn; intros e H; apply H.
Qed.

Lemma on_message_step msg w :
  exists evs,
    step (WsMessage msg) w = emit evs w /\
    count is_connect evs = 0 /\ count is_send evs = 0.
Proof.
  destruct (process_janus_msg_cases msg w)
    as (evs & Hr & [-> | [(m & v & ->) | (m & ->)]]);
    eexists; (split;
      [unfold step, run; rewrite on_message_is_process_janus_msg, Hr; reflexivity
      | split; reflexivity]).
Qed.

Lemma shutdown_effect w :
  fst (shutdown w) = inl tt /\
  shutting_down (self (step CallShutdown w)) = true /\
  janus_ws (self (step CallShutdown w)) = None /\
  janus_proc (self (step CallShutdown w)) = None /\
  janus_ws_backoff (self (step CallShutdown w)) = janus_ws_backoff (self w) /\
  trace (step CallShutdown w) =
    trace w
    ++ match janus_ws (self w) with Some ws => [WsClose (ws_id ws)] | None => [] end
    ++ match janus_proc (self w) with Some p => [ProcTerminate p] | None => [] end.
Proof.
  destruct w as [[b [ws|] [p|] sd] t pc nws nl out]; cbn;
    rewrite <- ?app_assoc, ?app_nil_r; repeat split; reflexivity.
Qed.

(** X3.  [shutdown] sets the flag, closes the link held if there is one,
    terminates the process held if there is one, in that order, and clears
    both references without raising; the backoff is left as it is.  A second
    [shutdown] finds nothing to do: it makes no call and changes nothing. *)
Theorem shutdown_clears_and_is_idempotent w :
  fst (shutdown w) = inl tt /\
  shutting_down (self (step CallShutdown w)) = true /\
  janus_ws (self (step CallShutdown w)) = None /\
  janus_proc (self (step CallShutdown w)) = None /\
  janus_ws_backoff (self (step CallShutdown w)) = janus_ws_backoff (self w) /\
  trace (step CallShutdown w) =
    trace w
    ++ match janus_ws (self w) with Some ws => [WsClose (ws_id ws)] | None => [] end
    ++ match janus_proc (self w) with Some p => [ProcTerminate p] | None => [] end /\
  step CallShutdown (step CallShutdown w) = step CallShutdown w.
Proof.
  destruct (shutdown_effect w) as (H1 & H2 & H3 & H4 & H5 & H6).
  repeat split; try assumption.
  destruct w as [[b [ws|] [p|] sd] t pc nws nl out]; reflexivity.
Qed.

Lemma step_shutting_down a w :
  shutting_down (self (step a w)) = (shutting_down (self w) || is_shutdown a)%bool.
Proof.
  destruct a; cbn [is_shutdown]; rewrite ?orb_false_r, ?orb_true_r.
  - apply supervisor_step_keeps_link.
  - destruct w as [[b ws p sd] t pc nws nl out]. reflexivity.
  - destruct w as [[b [ws|] [p|] sd] t pc nws nl out]; reflexivity.
  - destruct w as [[b [[i u [|]]|] p sd] t pc nws nl out]; reflexivity.
  - destruct w as [[b ws p [|]] t pc nws nl out]; reflexivity.
  - destruct (on_message_step msg w) as (evs & -> & _). reflexivity.
Qed.

(** X4.  [shutting_down] is set by [shutdown] and by nothing else, and is
    never cleared: after any schedule it is set exactly if it was set before
    or the schedule has a call of [shutdown]. *)
Theorem shutting_down_is_set_by_shutdown_only schedule : forall w,
  shutting_down (self (exec schedule w)) =
  (shutting_down (self w) || existsb is_shutdown schedule)%bool.
Proof.
  induction schedule as [|a schedule IH]; intros w.
  - cbn. rewrite orb_false_r. reflexivity.
  - rewrite exec_cons, IH, step_shutting_down. cbn [existsb].
    rewrite orb_assoc. reflexivity.
Qed.

Lemma step_backoff a w :
  janus_ws_backoff (self (step a w)) =
  if is_close a then more (janus_ws_backoff (self w)) else janus_ws_backoff (self w).
Proof.
  destruct a; cbn [is_close];
    try (apply backoff_changes_only_on_close; discriminate).
  destruct w as [[b ws p [|]] t pc nws nl out]; reflexivity.
Qed.

(** X5.  The backoff of the link is advanced once by every close and changed
    by nothing else: after any schedule it is the backoff before, with [more]
    applied as many times as the schedule has closes.  No message and no
    reconnection takes it back. *)
Theorem backoff_counts_the_closes schedule : forall w,
  janus_ws_backoff (self (exec schedule w)) =
  Nat.iter (List.length (filter is_close schedule)) more (janus_ws_backoff (self w)).
Proof.
  induction schedule as [|a schedule IH]; intros w; [reflexivity|].
  rewrite exec_cons, IH, step_backoff. cbn [filter].
  destruct (is_close a); [|reflexivity].
  cbn [List.length]. rewrite Nat.iter_succ_r. reflexivity.
Qed.

(** What a step does to the link: it opens a new one, numbered by the count
    of links so far, and holds it; or it opens none and keeps or drops the
    one held. *)
Lemma step_link a w :
  exists evs,
    trace (step a w) = trace w ++ evs /\
    ((exists pre u,
        evs = pre ++ [WsNew (ws_created w) u] /\
        Forall (fun e => is_connect e = false) pre /\
        ws_created (step a w) = S (ws_created w) /\
        exists ws, janus_ws (self (step a w)) = Some ws /\ ws_id ws = ws_created w)
     \/
     (Forall (fun e => is_connect e = false) evs /\
      ws_created (step a w) = ws_created w /\
      (janus_ws (self (step a w)) = janus_ws (self w) \/
       janus_ws (self (step a w)) = None))).
Proof.
  destruct a.
  - destruct (supervisor_step_frame w) as (evs & Ht & Hall & Hn & Hs).
    exists evs. split; [exact Ht|]. right. split; [|split].
    + eapply Forall_impl; [|exact Hall]. cbn. intros e H. apply H.
    + exact Hn.
    + left. rewrite Hs. reflexivity.
  - destruct w as [[b ws p sd] t pc nws nl out].
    eexists. split; [reflexivity|]. left. exists [].
    eexists. repeat split; [constructor|]. eexists. split; reflexivity.
  - destruct (shutdown_effect w) as (_ & _ & H3 & _ & _ & H6).
    eexists. split; [exact H6|]. right. split; [|split].
    + destruct (janus_ws (self w)), (janus_proc (self w)); repeat constructor.
    + destruct w as [[b [ws|] [p|] sd] t pc nws nl out]; reflexivity.
    + right. exact H3.
  - destruct w as [[b [[i u [|]]|] p sd] t pc nws nl out];
      (eexists; split;
       [first [symmetry; apply app_nil_r | reflexivity]
       | right; split; [repeat constructor | split; [reflexivity | left; reflexivity]]]).
  - destruct w as [[b ws p [|]] t pc nws nl out].
    + exists []. split; [symmetry; apply app_nil_r|]. right.
      split; [constructor | split; [reflexivity | left; reflexivity]].
    + eexists. split; [cbn; rewrite <- !app_assoc; reflexivity|]. left.
      exists [Log Warning (Text "Reconnecting to Janus WS.")].
      eexists. repeat split; [repeat constructor|].
      eexists. split; reflexivity.
  - destruct (process_janus_msg_cases msg w) as (evs & Hr & Hcases).
    assert (Hs : step (WsMessage msg) w = emit evs w).
    { unfold step, run. rewrite on_message_is_process_janus_msg, Hr. reflexivity. }
    exists evs. rewrite Hs. split; [reflexivity|]. right. split; [|split].
    + destruct Hcases as [-> | [(m & v & ->) | (m & ->)]]; repeat constructor.
    + reflexivity.
    + left. reflexivity.
Qed.

Lemma sink_calls_none evs :
  Forall (fun e => is_to_plugin e = false /\ is_to_server e = false) evs ->
  to_plugin_calls evs = [] /\ to_server_calls evs = [].
Proof.
  induction 1 as [|e evs [H1 H2] _ [IH1 IH2]]; [split; reflexivity|].
  unfold to_plugin_calls, to_server_calls in *. cbn [flat_map].
  rewrite IH1, IH2.
  destruct e; try discriminate H1; try discriminate H2; split; reflexivity.
Qed.

(** Only a message makes a call to one of the two sinks. *)
Lemma other_step_sinks a w :
  (forall m, a <> WsMessage m) ->
  to_server_calls (trace (step a w)) = to_server_calls (trace w) /\
  to_plugin_calls (trace (step a w)) = to_plugin_calls (trace w).
Proof.
  intros Ha.
  assert (H : exists evs,
            trace (step a w) = trace w ++ evs /\
            Forall (fun e => is_to_plugin e = false /\ is_to_server e = false) evs).
  { destruct a.
    - destruct (supervisor_step_frame w) as (evs & Ht & Hall & _).
      exists evs. split; [exact Ht|].
      eapply Forall_impl; [|exact Hall]. cbn. intros e H. split; apply H.
    - destruct w as [[b ws p sd] t pc nws nl out].
      eexists. split; [reflexivity | repeat constructor].
    - destruct (shutdown_effect w) as (_ & _ & _ & _ & _ & H6).
      eexists. split; [exact H6|].
      destruct (janus_ws (self w)), (janus_proc (self w)); repeat constructor.
    - destruct w as [[b [[i u [|]]|] p sd] t pc nws nl out];
        (eexists; split;
         [first [symmetry; apply app_nil_r | reflexivity] | repeat constructor]).
    - destruct w as [[b ws p [|]] t pc nws nl out].
      + exists []. split; [symmetry; apply app_nil_r | constructor].
      + eexists. split; [cbn; rewrite <- !app_assoc; reflexivity | repeat constructor].
    - exfalso. apply (Ha msg). reflexivity. }
  destruct H as (evs & -> & Hall).
  destruct (sink_calls_none evs Hall) as [H1 H2].
  rewrite to_server_calls_app, to_plugin_calls_app, H1, H2, !app_nil_r.
  split; reflexivity.
Qed.

(** X8.  The two sinks get the messages in the order of their arrival and
    nothing else: after any schedule, the server has been sent exactly the
    texts that are relayed, each once and unchanged as [dict(janus=text)],
    and the plugin exactly the truthy payloads, whatever the supervisor, the
    plugin and the link did in between. *)
Theorem sinks_get_the_messages_in_order schedule : forall w,
  to_server_calls (trace (exec schedule w)) =
    to_server_calls (trace w) ++ flat_map relayed (messages_of schedule) /\
  to_plugin_calls (trace (exec schedule w)) =
    to_plugin_calls (trace w) ++ flat_map handed_over (messages_of schedule).
Proof.
  induction schedule as [|a schedule IH]; intros w.
  - cbn. rewrite !app_nil_r. split; reflexivity.
  - rewrite exec_cons. destruct (IH (step a w)) as [I1 I2]. rewrite I1, I2.
    assert (Hm : (exists m, a = WsMessage m) \/ forall m, a <> WsMessage m)
      by (destruct a; try (right; discriminate); left; eexists; reflexivity).
    destruct Hm as [(m & ->) | Hm].
    + destruct (message_step_calls m w) as [H1 H2]. rewrite H1, H2.
      cbn [messages_of flat_map app]. rewrite <- !app_assoc.
      split; reflexivity.
    + destruct (other_step_sinks a w Hm) as [H1 H2]. rewrite H1, H2.
      replace (messages_of (a :: schedule)) with (messages_of schedule)
        by (destruct a; try reflexivity; exfalso; apply (Hm msg); reflexivity).
      split; reflexivity.
Qed.

End LinkLife.

(** * [on_close] and [shutdown] on two threads *)

Section ThreadsLife.

Context {host : Host}.

Lemma thread_exec_cons a schedule c :
  thread_exec (a :: schedule) c = thread_exec schedule (thread_step a c).
Proof. reflexivity. Qed.

(** [on_close] is its two parts, one after the other. *)
Lemma on_close_in_two_parts w :
  on_close w = (goes_on <- on_close_test ;;
                if goes_on then on_close_rest else ret tt) w.
Proof.
  destruct w as [[b ws p [|]] t pc nws nl out]; reflexivity.
Qed.

(** Once the flag is set, no step of [step] but the call of [start_janus_ws]
    by [start] opens a link. *)
Lemma no_link_from_a_whole_step a w :
  is_start_janus_ws a = false ->
  shutting_down (self w) = true ->
  count is_connect (trace (step a w)) = count is_connect (trace w).
Proof.
  intros Ha Hs. destruct a; try discriminate Ha.
  - apply supervisor_step_counts.
  - destruct (shutdown_effect w) as (_ & _ & _ & _ & _ & H6).
    rewrite H6, !count_app.
    destruct (janus_ws (self w)), (janus_proc (self w)); cbn; lia.
  - destruct w as [[b [[i u [|]]|] p sd] t pc nws nl out]; try reflexivity.
    change (count is_connect (t ++ [WsSend i msg]) = count is_connect t).
    rewrite count_app. cbn. lia.
  - destruct w as [[b ws p sd] t pc nws nl out]; cbn in Hs; subst sd.
    reflexivity.
  - destruct (on_message_step msg w) as (evs & -> & Hc & _).
    unfold emit; cbn [trace]. rewrite count_app, Hc. lia.
Qed.

Lemma thread_step_after_shutdown a c :
  is_whole_start_janus_ws a = false ->
  shutting_down (self (shared c)) = true ->
  shutting_down (self (shared (thread_step a c))) = true /\
  count is_connect (trace (shared (thread_step a c))) + past_test (thread_step a c)
  = count is_connect (trace (shared c)) + past_test c /\
  past_test (thread_step a c) <= past_test c.
Proof.
  intros Ha Hs. destruct c as [w n]. cbn [shared past_test] in *.
  destruct a as [| |a]; cbn [thread_step shared past_test].
  - destruct w as [[b ws p sd] t pc nws nl out]; cbn in Hs; subst sd.
    split; [reflexivity|split; [reflexivity|apply le_n]].
  - destruct n as [|n]; [split; [exact Hs|split; [reflexivity|apply le_n]]|].
    destruct w as [[b ws p sd] t pc nws nl out]; cbn in Hs; subst sd.
    split; [reflexivity|]. split; [|cbn; lia].
    change (count is_connect
              ((t ++ [Log Warning (Text "Reconnecting to Janus WS.")])
                 ++ [WsNew nws ("ws://" ++ JANUS_SERVER ++ ":" ++ JANUS_WS_PORT ++ "/")])
            + n = count is_connect t + S n).
    rewrite !count_app. cbn. lia.
  - cbn [is_whole_start_janus_ws] in Ha. cbn [shared past_test]. split; [|split].
    + rewrite step_shutting_down, Hs. reflexivity.
    + rewrite (no_link_from_a_whole_step a w Ha Hs). reflexivity.
    + lia.
Qed.

(** X6.  Once [shutting_down] is set, the only links opened are those of
    the [on_close] callbacks that had found the flag false before and had
    not gone on yet: each of them opens one when it goes on.  A callback
    that tests the flag afterwards opens none, and so does every other
    method, the call of [start_janus_ws] by [start] aside.  With no callback
    in that place, no link is opened any more. *)
Theorem links_after_shutdown_come_from_callbacks_past_the_test schedule : forall c,
  existsb is_whole_start_janus_ws schedule = false ->
  shutting_down (self (shared c)) = true ->
  count is_connect (trace (shared (thread_exec schedule c)))
    + past_test (thread_exec schedule c)
  = count is_connect (trace (shared c)) + past_test c /\
  past_test (thread_exec schedule c) <= past_test c /\
  (past_test c = 0 ->
   count is_connect (trace (shared (thread_exec schedule c)))
   = count is_connect (trace (shared c))).
Proof.
  induction schedule as [|a schedule IH]; intros c Hsched Hs.
  - cbn. repeat split; lia.
  - cbn [existsb] in Hsched. apply orb_false_iff in Hsched as [Ha Hsched].
    rewrite thread_exec_cons.
    destruct (thread_step_after_shutdown a c Ha Hs) as (Hs' & Heq & Hle).
    destruct (IH (thread_step a c) Hsched Hs') as (H1 & H2 & _).
    repeat split; lia.
Qed.

End ThreadsLife.

(** A callback overtaken by [shutdown] opens a link after it; one that runs
    afterwards opens none. *)
Lemma links_after_shutdown_come_from_callbacks_past_the_test_witness :
  let c := @thread_exec Sample.crashing
             [Whole CallStartJanusWs; CloseTests; Whole CallShutdown]
             {| shared := init; past_test := 0 |} in
  let c' := @thread_exec Sample.crashing
              [CloseGoesOn; CloseTests; CloseGoesOn; Whole WsClosed] c in
  past_test c = 1 /\
  count is_connect (trace (shared c')) + past_test c'
  = count is_connect (trace (shared c)) + 1.
Proof.
  split; [reflexivity|].
  apply (@links_after_shutdown_come_from_callbacks_past_the_test Sample.crashing
           [CloseGoesOn; CloseTests; CloseGoesOn; Whole WsClosed]
           (@thread_exec Sample.crashing
              [Whole CallStartJanusWs; CloseTests; Whole CallShutdown]
              {| shared := init; past_test := 0 |}));
    reflexivity.
Defined.

(** * More about the supervisor *)

Ltac run_step :=
  cbv beta iota zeta delta
    - [Nat.ltb Nat.eqb String.eqb Z.eqb app String.append max_tries
       truthy is_not_True streaming_failed_alert janus_lines logged unread
       List.length Nat.add json_loads JANUS_DIR JANUS_SERVER pi_version
       disable_video_streaming auth_token setup_result run_result
       setup_cmd janus_cmd failure_trace after_failure count expo Nat.sub
       supervisor_inv Nat.mul].

Ltac run_steps := run_step; repeat (case_split; run_step).

Ltac arith_facts :=
  repeat match goal with
         | H : (_ =? _)%nat = true |- _ => apply Nat.eqb_eq in H
         | H : (_ =? _)%nat = false |- _ => apply Nat.eqb_neq in H
         | H : (_ <? _)%nat = true |- _ => apply Nat.ltb_lt in H
         | H : (_ <? _)%nat = false |- _ => apply Nat.ltb_ge in H
         end.

Ltac count_small :=
  repeat match goal with
         | |- context [count ?p (?e :: ?l)] =>
             let v := eval lazy in (count p (e :: l)) in
             change (count p (e :: l)) with v
         end.

Section SupervisorLife.

Context {host : Host}.

(** A step of the thread keeps [supervisor_inv]. *)
Lemma supervisor_step_keeps_inv w :
  supervisor_inv w -> supervisor_inv (step SupervisorStep w).
Proof.
  destruct w as [[b ws p sd] t pc nws nl out].
  unfold supervisor_inv at 1. cbn [sup trace]. unfold max_tries.
  destruct pc; intros H; run_steps; unfold supervisor_inv; cbn [sup trace];
    unfold max_tries in *; rewrite ?count_app; count_small; arith_facts; lia.
Qed.

(** The other steps leave the thread where it is and make none of its
    calls. *)
Lemma other_step_frame a w :
  a <> SupervisorStep ->
  sup (step a w) = sup w /\
  exists evs,
    trace (step a w) = trace w ++ evs /\
    Forall (fun e => is_supervisor_call e = false /\ is_janus_line e = false) evs.
Proof.
  intros Ha. destruct a; try congruence.
  - destruct w as [[b ws p sd] t pc nws nl out].
    split; [reflexivity|]. eexists. split; [reflexivity|]. repeat constructor.
  - destruct (shutdown_effect w) as (_ & _ & _ & _ & _ & H6).
    split; [destruct w as [[b [ws|] [p|] sd] t pc nws nl out]; reflexivity|].
    eexists. split; [exact H6|].
    destruct (janus_ws (self w)), (janus_proc (self w)); repeat constructor.
  - destruct w as [[b [[i u [|]]|] p sd] t pc nws nl out];
      (split; [reflexivity|]; eexists; split;
       [first [symmetry; apply app_nil_r | reflexivity] | repeat constructor]).
  - destruct w as [[b ws p [|]] t pc nws nl out]; (split; [reflexivity|]).
    + exists []. split; [symmetry; apply app_nil_r | constructor].
    + eexists. split; [cbn; rewrite <- !app_assoc; reflexivity | repeat constructor].
  - destruct (process_janus_msg_cases msg w) as (evs & Hr & Hcases).
    assert (Hs : step (WsMessage msg) w = emit evs w).
    { unfold step, run. rewrite on_message_is_process_janus_msg, Hr. reflexivity. }
    rewrite Hs. split; [reflexivity|]. exists evs. split; [reflexivity|].
    destruct Hcases as [-> | [(m & v & ->) | (m & ->)]]; repeat constructor.
Qed.

Lemma other_step_counts a w p :
  a <> SupervisorStep ->
  (forall e, is_supervisor_call e = false -> is_janus_line e = false -> p e = false) ->
  count p (trace (step a w)) = count p (trace w).
Proof.
  intros Ha Hp. destruct (other_step_frame a w Ha) as (_ & evs & -> & Hall).
  rewrite count_app, (count_none p evs); [lia|].
  eapply Forall_impl; [|exact Hall]. cbn. intros e [H1 H2]. apply Hp; assumption.
Qed.

Lemma step_keeps_inv a w : supervisor_inv w -> supervisor_inv (step a w).
Proof.
  intros H.
  assert (Ha : a = SupervisorStep \/ a <> SupervisorStep)
    by (destruct a; (left; reflexivity) || (right; discriminate)).
  destruct Ha as [-> | Ha]; [apply supervisor_step_keeps_inv, H|].
  destruct (other_step_frame a w Ha) as (Hs & _).
  unfold supervisor_inv in *. cbv zeta in *. rewrite Hs.
  rewrite (other_step_counts a w is_setup Ha),
    (other_step_counts a w is_launch Ha), (other_step_counts a w is_sleep Ha),
    (other_step_counts a w is_alert Ha), (other_step_counts a w is_janus_line Ha);
    try exact H;
    intros e H1 H2; try assumption; destruct e; try reflexivity; discriminate.
Qed.

Lemma exec_keeps_inv schedule : forall w,
  supervisor_inv w -> supervisor_inv (exec schedule w).
Proof.
  induction schedule as [|a schedule IH]; intros w H; [exact H|].
  rewrite exec_cons. apply IH, step_keeps_inv, H.
Qed.

Lemma init_inv : supervisor_inv init.
Proof. unfold supervisor_inv. cbn. repeat split; reflexivity. Qed.

(** X9.  Whatever the plugin, the gateway and the websocket client do, and in
    whatever order, the supervisor thread runs [setup.sh] at most once,
    launches the gateway at most five times, sleeps between two launches at
    most four times and enqueues at most one alert. *)
Theorem supervisor_calls_are_bounded schedule :
  count is_setup (trace (exec schedule init)) <= 1 /\
  count is_launch (trace (exec schedule init)) <= 5 /\
  count is_sleep (trace (exec schedule init)) <= 4 /\
  count is_alert (trace (exec schedule init)) <= 1.
Proof.
  pose proof (exec_keeps_inv schedule init init_inv) as H.
  unfold supervisor_inv, max_tries in H.
  destruct (sup (exec schedule init)); lia.
Qed.

(** X10.  In every run the lines of gateway output that are logged number at
    most 1000 per launch. *)
Theorem logged_lines_are_bounded schedule :
  count is_janus_line (trace (exec schedule init)) <=
  1000 * count is_launch (trace (exec schedule init)).
Proof.
  pose proof (exec_keeps_inv schedule init init_inv) as H.
  unfold supervisor_inv, max_tries in H.
  destruct (sup (exec schedule init)); lia.
Qed.

(** X11.  The end of the gateway's output while [shutting_down] is false is
    taken for a crash: the supervisor waits for the process and the call of
    [run_janus] fails.  Before the fifth call the decorator sleeps and
    [run_janus] is called again; at the fifth, one crash report and one alert
    are made and the thread returns. *)
Theorem gateway_exit_is_a_failed_try w tries n k :
  sup w = AtWhile tries n ->
  shutting_down (self w) = false ->
  janus_proc (self w) = Some (Process k) ->
  stdout_rest w = [] ->
  sup (supervise 5 w) =
    (if (tries =? 5)%nat then Finished else AtRunJanus (S tries)) /\
  trace (supervise 5 w) =
    trace w ++ ProcWait (Process k)
            :: (if (tries =? 5)%nat
                then [CaptureException; AddAlert streaming_failed_alert true]
                else [BackoffSleep tries (expo (tries - 1))]).
Proof.
  intros Hpc Hs Hp Ho. destruct w as [[b ws q sd] t pc nws nl out].
  cbn in Hpc, Hs, Hp, Ho. subst pc sd q out.
  change 5 with (4 + 1) at 1 3. rewrite supervise_add.
  rewrite drain_leaves_loop by exact I. cbn [tl].
  change (supervise 1 ?x) with (step SupervisorStep x).
  rewrite wait_then_failure. cbn [sup trace].
  unfold after_failure, failure_trace, max_tries. split; reflexivity.
Qed.

(** X12.  [shutdown] while the thread is in the drain loop (at one of its
    two tests of the flag, or inside [readline]) ends the thread at its next
    steps, without a relaunch, a sleep of the decorator, a crash report or
    an alert, and the process reference stays cleared. *)
Theorem shutdown_during_the_drain_ends_quietly w tries n p k :
  sup w = AtWhile tries n \/ sup w = InReadline tries n \/ sup w = AtElif tries n ->
  janus_proc (self w) = Some p ->
  3 <= k ->
  sup (exec (CallShutdown :: repeat SupervisorStep k) w) = Finished /\
  janus_proc (self (exec (CallShutdown :: repeat SupervisorStep k) w)) = None /\
  count is_launch (trace (exec (CallShutdown :: repeat SupervisorStep k) w)) =
    count is_launch (trace w) /\
  count is_sleep (trace (exec (CallShutdown :: repeat SupervisorStep k) w)) =
    count is_sleep (trace w) /\
  count is_crash_report (trace (exec (CallShutdown :: repeat SupervisorStep k) w)) =
    count is_crash_report (trace w) /\
  count is_alert (trace (exec (CallShutdown :: repeat SupervisorStep k) w)) =
    count is_alert (trace w).
Proof.
  intros Hpc Hp Hk. rewrite exec_cons.
  change (exec (repeat SupervisorStep k)) with (supervise k).
  replace k with (3 + (k - 3)) by lia. rewrite supervise_add.
  destruct w as [[b ws q sd] t pc nws nl out]. cbn in Hpc, Hp. subst q.
  assert (H3 : exists w3,
             supervise 3
               (step CallShutdown
                  {| self := {| janus_ws_backoff := b; janus_ws := ws;
                                janus_proc := Some p; shutting_down := sd |};
                     trace := t; sup := pc; ws_created := nws; launched := nl;
                     stdout_rest := out |}) = w3 /\
             sup w3 = Finished /\
             trace w3 =
               t ++ match ws with Some l => [WsClose (ws_id l)] | None => [] end
                 ++ [ProcTerminate p] /\
             janus_proc (self w3) = None).
  { destruct Hpc as [-> | [-> | ->]]; destruct ws as [ws|];
      (eexists; split; [reflexivity|]); cbn; rewrite <- ?app_assoc;
      repeat split; reflexivity. }
  destruct H3 as (w3 & -> & Hf & Ht & Hn).
  rewrite supervise_Finished by exact Hf. rewrite Ht. cbn [trace].
  rewrite !count_app.
  destruct ws; cbn; repeat split; try assumption; lia.
Qed.

(** X13.  A call of [run_janus] looks at the flag only after the launch:
    entered with [shutting_down] set, it still launches the gateway and
    keeps the new process in [janus_proc]; then the loop test ends the
    thread, and the process is neither read nor terminated. *)
Theorem run_janus_launches_before_it_looks w tries lines rc :
  sup w = AtRunJanus tries ->
  shutting_down (self w) = true ->
  run_result (launched w) = Some (lines, rc) ->
  sup (supervise 2 w) = Finished /\
  trace (supervise 2 w) =
    trace w ++ [Log Debug (Text ("Popen: " ++ janus_cmd)%string); PopenRun janus_cmd] /\
  janus_proc (self (supervise 2 w)) = Some (Process (launched w)) /\
  stdout_rest (supervise 2 w) = lines.
Proof.
  intros Hpc Hs Hr. destruct w as [[b ws q sd] t pc nws nl out].
  cbn in Hpc, Hs, Hr. subst pc sd.
  run_model. rewrite Hr. run_model. rewrite <- !app_assoc.
  repeat split; reflexivity.
Qed.

(** X14.  When [setup.sh] cannot be started at all ([psutil.Popen] raises),
    the failure goes to the general [except]: one crash report and one alert,
    no launch, no retry, and the thread returns. *)
Theorem setup_that_cannot_start_is_reported w :
  setup_result = None ->
  sup w = AtSetup ->
  forall n,
    sup (supervise (S n) w) = Finished /\
    trace (supervise (S n) w) =
      trace w ++ [PopenSetup setup_cmd; CaptureException;
                  AddAlert streaming_failed_alert true].
Proof.
  intros Hs Hpc n. destruct w as [s t pc nws nl out]. cbn in Hpc. subst pc.
  rewrite supervise_S.
  assert (H1 : step SupervisorStep
                 {| self := s; trace := t; sup := AtSetup; ws_created := nws;
                    launched := nl; stdout_rest := out |}
               = {| self := s;
                    trace := t ++ [PopenSetup setup_cmd; CaptureException;
                                   AddAlert streaming_failed_alert true];
                    sup := Finished; ws_created := nws; launched := nl;
                    stdout_rest := out |}).
  { run_model. rewrite Hs. cbn. rewrite <- !app_assoc. reflexivity. }
  rewrite H1, supervise_Finished by reflexivity. split; reflexivity.
Qed.

End SupervisorLife.

Lemma gateway_exit_is_a_failed_try_witness :
  let w := @exec Sample.crashing (repeat SupervisorStep 2) init in
  sup (@supervise Sample.crashing 5 w) = AtRunJanus 2.
Proof.
  apply (@gateway_exit_is_a_failed_try Sample.crashing
           (@exec Sample.crashing (repeat SupervisorStep 2) init) 1 0 0
           eq_refl eq_refl eq_refl eq_refl).
Defined.

Lemma shutdown_during_the_drain_ends_quietly_witness :
  let w := @exec Sample.chatty (repeat SupervisorStep 4) init in
  sup (@exec Sample.chatty (CallShutdown :: repeat SupervisorStep 3) w) = Finished /\
  count is_launch (trace (@exec Sample.chatty (CallShutdown :: repeat SupervisorStep 3) w)) = 1.
Proof.
  pose proof (@shutdown_during_the_drain_ends_quietly Sample.chatty
                (@exec Sample.chatty (repeat SupervisorStep 4) init)
                1 0 (Process 0) 3
                (or_intror (or_introl eq_refl)) eq_refl (le_n 3))
    as (Hf & _ & Hl & _).
  split; [exact Hf | rewrite Hl; reflexivity].
Defined.

Lemma run_janus_launches_before_it_looks_witness :
  let w := @exec Sample.crashing [SupervisorStep; CallShutdown] init in
  sup (@supervise Sample.crashing 2 w) = Finished /\
  janus_proc (self (@supervise Sample.crashing 2 w)) = Some (Process 0).
Proof.
  pose proof (@run_janus_launches_before_it_looks Sample.crashing
                (@exec Sample.crashing [SupervisorStep; CallShutdown] init)
                1 [] 1%Z eq_refl eq_refl eq_refl)
    as (Hf & _ & Hp & _).
  split; [exact Hf | exact Hp].
Defined.

Lemma setup_that_cannot_start_is_reported_witness :
  let missing := Sample.host None (fun _ => Some ([], 1%Z)) in
  count is_alert (trace (@supervise missing 1 init)) = 1 /\
  count is_launch (trace (@supervise missing 1 init)) = 0.
Proof.
  pose proof (@setup_that_cannot_start_is_reported
                (Sample.host None (fun _ => Some ([], 1%Z))) init
                eq_refl eq_refl 0) as (_ & Ht).
  split; rewrite Ht; reflexivity.
Defined.

(** * [start] and [wait_for_janus] *)

Section StartLife.

Context {host : Host} {startup : Startup}.

Lemma sys_exec_cons a schedule s :
  sys_exec (a :: schedule) s = sys_exec schedule (sys_step a s).
Proof. reflexivity. Qed.

Lemma sys_step_starter a s :
  starter_of (sys_step a s) =
  if is_main_step a then starter_step (starter_of s) else starter_of s.
Proof.
  destruct a as [|[]]; cbn; try reflexivity.
  destruct (thread_started (starter_of s)); reflexivity.
Qed.

(** The thread in [start] goes its way whatever the others do. *)
Lemma sys_exec_starter schedule : forall s,
  starter_of (sys_exec schedule s) =
  Nat.iter (main_steps schedule) starter_step (starter_of s).
Proof.
  induction schedule as [|a schedule IH]; intros s; [reflexivity|].
  rewrite sys_exec_cons, IH, sys_step_starter. unfold main_steps. cbn [filter].
  destruct (is_main_step a); [|reflexivity].
  cbn [List.length]. rewrite Nat.iter_succ_r. reflexivity.
Qed.

Lemma iter_keeps {A} (P : A -> Prop) (f : A -> A) :
  (forall a, P a -> P (f a)) -> forall n a, P a -> P (Nat.iter n f a).
Proof.
  intros Hf n a Ha. induction n as [|n IH]; [exact Ha|]. cbn. apply Hf, IH.
Qed.

Lemma filter_length_app {A} (p : A -> bool) l1 l2 :
  List.length (filter p (l1 ++ l2)) =
  List.length (filter p l1) + List.length (filter p l2).
Proof. rewrite filter_app, length_app. reflexivity. Qed.

Lemma starter_step_keeps_inv c : probe_inv c -> probe_inv (starter_step c).
Proof.
  destruct c as [pc st calls]. unfold probe_inv, starter_step, connects_made,
    backoffs_made, probe_max_tries. cbn [main probe_calls thread_started].
  destruct pc as [|tries| | |e]; intros H.
  - destruct external_gateway; cbn [main probe_calls]; lia.
  - destruct (connect_ok tries); [|destruct (tries =? 10)%nat eqn:E];
      cbn [main probe_calls]; rewrite ?filter_length_app; cbn; arith_facts; lia.
  - cbn [main probe_calls]. exact H.
  - exact H.
  - exact H.
Qed.

(** X15.  In every run, [wait_for_janus] tries at most ten connections to
    the gateway, and its decorator sleeps at most nine times between
    them. *)
Theorem probe_is_bounded schedule :
  connects_made (starter_of (sys_exec schedule boot)) <= 10 /\
  backoffs_made (starter_of (sys_exec schedule boot)) <= 9.
Proof.
  rewrite sys_exec_starter.
  assert (H : probe_inv (Nat.iter (main_steps schedule) starter_step (starter_of boot))).
  { apply iter_keeps; [apply starter_step_keeps_inv|].
    unfold probe_inv. cbn. split; reflexivity. }
  unfold probe_inv, probe_max_tries in H.
  destruct (main _); lia.
Qed.

Lemma failed_probes_snoc k : forall from,
  failed_probes (S k) from =
  failed_probes k from
  ++ wait_for_janus_calls ++ [ProbeBackoff (from + k) (expo (from + k - 1))].
Proof.
  induction k as [|k IH]; intros from.
  - cbn. rewrite Nat.add_0_r. reflexivity.
  - change (failed_probes (S (S k)) from)
      with ([Sleep 1; SocketConnect JANUS_SERVER JANUS_WS_PORT;
             ProbeBackoff from (expo (from - 1))]
            ++ failed_probes (S k) (S from)).
    rewrite IH. cbn [failed_probes]. rewrite <- app_assoc.
    replace (S from + k) with (from + S k) by lia. reflexivity.
Qed.

(** The probe while the connections fail. *)
Lemma probes_fail_until k :
  external_gateway = false ->
  (forall j, 1 <= j <= k -> connect_ok j = false) ->
  k < 10 ->
  Nat.iter (S k) starter_step (starter_of boot) =
  {| main := AtProbe (S k); thread_started := true;
     probe_calls := failed_probes k 1 |}.
Proof.
  intros He. induction k as [|k IH]; intros Hf Hk.
  - cbn. unfold starter_step. cbn. rewrite He. reflexivity.
  - rewrite Nat.iter_succ.
    rewrite IH by (try lia; intros j Hj; apply Hf; lia).
    unfold starter_step. cbn [main thread_started probe_calls].
    rewrite (Hf (S k)) by lia.
    replace (S k =? probe_max_tries)%nat with false
      by (symmetry; apply Nat.eqb_neq; unfold probe_max_tries; lia).
    rewrite failed_probes_snoc. reflexivity.
Qed.

Lemma starter_done n c :
  starter_step c = c -> Nat.iter n starter_step c = c.
Proof.
  intros H. induction n as [|n IH]; [reflexivity|].
  rewrite Nat.iter_succ, IH. exact H.
Qed.

Lemma iter_add {A} (f : A -> A) a b x :
  Nat.iter (a + b) f x = Nat.iter a f (Nat.iter b f x).
Proof.
  induction a as [|a IH]; [reflexivity|].
  cbn [Nat.add]. rewrite !Nat.iter_succ, IH. reflexivity.
Qed.

Lemma filter_failed_probes k : forall from,
  List.length (filter is_socket_connect (failed_probes k from)) = k /\
  List.length (filter is_probe_backoff (failed_probes k from)) = k.
Proof.
  induction k as [|k IH]; intros from; [split; reflexivity|].
  destruct (IH (S from)) as [H1 H2]. cbn. rewrite H1, H2. split; reflexivity.
Qed.

(** X16.  When none of the ten connections succeeds, [start] never gets to
    [start_janus_ws]: its eleventh step raises the last error, after ten
    connections and nine sleeps, and the supervisor thread it started is
    left running. *)
Theorem start_gives_up_after_ten_probes schedule :
  external_gateway = false ->
  (forall k, 1 <= k <= 10 -> connect_ok k = false) ->
  main (starter_of (sys_exec schedule boot)) <> AtConnect /\
  main (starter_of (sys_exec schedule boot)) <> StartReturned /\
  (11 <= main_steps schedule ->
   starter_of (sys_exec schedule boot) =
     {| main := StartRaised OSError; thread_started := true;
        probe_calls := failed_probes 9 1 ++ wait_for_janus_calls |}).
Proof.
  intros He Hf. rewrite sys_exec_starter.
  assert (H11 : Nat.iter 11 starter_step (starter_of boot) =
                {| main := StartRaised OSError; thread_started := true;
                   probe_calls := failed_probes 9 1 ++ wait_for_janus_calls |}).
  { rewrite Nat.iter_succ.
    rewrite (probes_fail_until 9 He) by (try lia; intros j Hj; apply Hf; lia).
    unfold starter_step. cbn [main thread_started probe_calls].
    rewrite (Hf 10) by lia. reflexivity. }
  destruct (le_lt_dec 11 (main_steps schedule)) as [Hn | Hn].
  - replace (main_steps schedule) with ((main_steps schedule - 11) + 11) by lia.
    rewrite iter_add, H11, starter_done by reflexivity.
    repeat split; try discriminate.
  - destruct (main_steps schedule) as [|k].
    + cbn. repeat split; try discriminate. lia.
    + rewrite (probes_fail_until k He) by (try lia; intros j Hj; apply Hf; lia).
      cbn. repeat split; try discriminate. lia.
Qed.

(** Every step only adds to the trace. *)
Lemma sys_step_trace a s :
  exists evs,
    trace (world_of (sys_step a s)) = trace (world_of s) ++ evs /\
    (main (starter_of s) = AtConnect -> is_main_step a = true ->
     1 <= count is_connect evs).
Proof.
  destruct a as [|a].
  - destruct s as [[sf t pc nws nl out] [m st calls]].
    destruct m as [|tries| | |e]; cbn.
    + destruct external_gateway; cbn;
        (eexists; split;
         [first [symmetry; apply app_nil_r | reflexivity] | discriminate]).
    + exists []. split; [symmetry; apply app_nil_r | discriminate].
    + eexists. split; [reflexivity|]. intros _ _. cbn. lia.
    + exists []. split; [symmetry; apply app_nil_r | discriminate].
    + exists []. split; [symmetry; apply app_nil_r | discriminate].
  - assert (Hq : forall b,
               exists evs,
                 trace (step b (world_of s)) = trace (world_of s) ++ evs /\
                 (main (starter_of s) = AtConnect -> false = true ->
                  1 <= count is_connect evs)).
    { intros b. destruct (step_link b (world_of s)) as (evs & Ht & _).
      exists evs. split; [exact Ht | discriminate]. }
    assert (Hn : exists evs,
                 trace (world_of s) = trace (world_of s) ++ evs /\
                 (main (starter_of s) = AtConnect -> false = true ->
                  1 <= count is_connect evs)).
    { exists []. split; [symmetry; apply app_nil_r | discriminate]. }
    destruct a; cbn [sys_step is_main_step world_of]; try apply Hq; try exact Hn.
    destruct (thread_started (starter_of s)); cbn [world_of]; [apply Hq | exact Hn].
Qed.

(** When [start] has returned, it has opened a link. *)
Lemma returned_start_has_opened_a_link schedule : forall s,
  (main (starter_of s) = StartReturned ->
   1 <= count is_connect (trace (world_of s))) ->
  main (starter_of (sys_exec schedule s)) = StartReturned ->
  1 <= count is_connect (trace (world_of (sys_exec schedule s))).
Proof.
  induction schedule as [|a schedule IH]; intros s Hs; [exact Hs|].
  rewrite sys_exec_cons. apply IH.
  destruct (sys_step_trace a s) as (evs & Ht & Hc).
  rewrite Ht, count_app, sys_step_starter.
  destruct (is_main_step a) eqn:Ha.
  - destruct s as [w [m st calls]]. cbn [starter_of main] in *.
    destruct m as [|tries| | |e]; unfold starter_step; cbn [main].
    + destruct external_gateway; discriminate.
    + destruct (connect_ok tries); [discriminate|].
      destruct (tries =? probe_max_tries)%nat; discriminate.
    + intros _. specialize (Hc eq_refl eq_refl). lia.
    + intros H. specialize (Hs H). lia.
    + discriminate.
  - intros H. specialize (Hs H). lia.
Qed.

(** X17.  When the connection succeeds at the call number [k] of
    [wait_for_janus], after [k - 1] failures, [start] returns at its step
    [k + 2], having tried [k] connections, slept [k - 1] times in between
    and opened a link; the supervisor thread is running. *)
Theorem start_connects_once_the_gateway_answers schedule k :
  external_gateway = false ->
  1 <= k <= 10 ->
  connect_ok k = true ->
  (forall j, 1 <= j < k -> connect_ok j = false) ->
  k + 2 <= main_steps schedule ->
  starter_of (sys_exec schedule boot) =
    {| main := StartReturned; thread_started := true;
       probe_calls := failed_probes (k - 1) 1 ++ wait_for_janus_calls |} /\
  connects_made (starter_of (sys_exec schedule boot)) = k /\
  backoffs_made (starter_of (sys_exec schedule boot)) = k - 1 /\
  1 <= count is_connect (trace (world_of (sys_exec schedule boot))).
Proof.
  intros He Hk Hok Hf Hn.
  assert (Hs : starter_of (sys_exec schedule boot) =
               {| main := StartReturned; thread_started := true;
                  probe_calls := failed_probes (k - 1) 1 ++ wait_for_janus_calls |}).
  { rewrite sys_exec_starter.
    replace (main_steps schedule) with ((main_steps schedule - (k + 2)) + (2 + k))
      by lia.
    rewrite iter_add.
    cbn [Nat.add]. rewrite !Nat.iter_succ.
    replace (Nat.iter k starter_step (starter_of boot))
      with {| main := AtProbe k; thread_started := true;
              probe_calls := failed_probes (k - 1) 1 |}.
    2:{ destruct k as [|k]; [lia|]. symmetry.
        replace (S k - 1) with k by lia.
        apply (probes_fail_until k He); [|lia].
        intros j Hj. apply Hf. lia. }
    assert (E1 : starter_step
                   {| main := AtProbe k; thread_started := true;
                      probe_calls := failed_probes (k - 1) 1 |}
                 = {| main := AtConnect; thread_started := true;
                      probe_calls := failed_probes (k - 1) 1
                                     ++ wait_for_janus_calls |}).
    { unfold starter_step. cbn [main thread_started probe_calls].
      rewrite Hok. reflexivity. }
    rewrite E1.
    assert (E2 : starter_step
                   {| main := AtConnect; thread_started := true;
                      probe_calls := failed_probes (k - 1) 1
                                     ++ wait_for_janus_calls |}
                 = {| main := StartReturned; thread_started := true;
                      probe_calls := failed_probes (k - 1) 1
                                     ++ wait_for_janus_calls |})
      by reflexivity.
    rewrite E2. apply starter_done. reflexivity. }
  split; [exact Hs|]. rewrite Hs.
  unfold connects_made, backoffs_made. cbn [probe_calls].
  rewrite !filter_length_app.
  destruct (filter_failed_probes (k - 1) 1) as [H1 H2]. rewrite H1, H2.
  split; [cbn; lia|]. split; [cbn; lia|].
  apply returned_start_has_opened_a_link; [discriminate|].
  rewrite Hs. reflexivity.
Qed.

Lemma run_call_trace e w : trace (run (call e) w) = trace w ++ [e].
Proof. reflexivity. Qed.

(** With an external gateway, a step keeps the supervisor thread unborn and
    the probe unused. *)
Lemma external_step a s :
  external_gateway = true ->
  thread_started (starter_of s) = false /\
  probe_calls (starter_of s) = [] /\
  (main (starter_of s) = AtStart \/ main (starter_of s) = AtConnect \/
   main (starter_of s) = StartReturned) /\
  count is_setup (trace (world_of s)) = 0 /\
  count is_launch (trace (world_of s)) = 0 /\
  count is_alert (trace (world_of s)) = 0 ->
  thread_started (starter_of (sys_step a s)) = false /\
  probe_calls (starter_of (sys_step a s)) = [] /\
  (main (starter_of (sys_step a s)) = AtStart \/
   main (starter_of (sys_step a s)) = AtConnect \/
   main (starter_of (sys_step a s)) = StartReturned) /\
  count is_setup (trace (world_of (sys_step a s))) = 0 /\
  count is_launch (trace (world_of (sys_step a s))) = 0 /\
  count is_alert (trace (world_of (sys_step a s))) = 0.
Proof.
  intros He (Hs & Hp & Hm & H1 & H2 & H3).
  assert (Hother : forall b, b <> SupervisorStep ->
            count is_setup (trace (step b (world_of s))) = 0 /\
            count is_launch (trace (step b (world_of s))) = 0 /\
            count is_alert (trace (step b (world_of s))) = 0).
  { intros b Hb.
    rewrite (other_step_counts b (world_of s) is_setup Hb),
      (other_step_counts b (world_of s) is_launch Hb),
      (other_step_counts b (world_of s) is_alert Hb); auto;
      intros e E1 E2; destruct e; try reflexivity; discriminate. }
  destruct a as [|a].
  - destruct s as [w [m st calls]]. cbn [starter_of world_of main thread_started
      probe_calls] in *. subst st calls.
    unfold sys_step, start_step, starter_step, start_effect.
    cbn [starter_of world_of main thread_started probe_calls].
    destruct Hm as [-> | [-> | ->]]; rewrite ?He;
      cbn [starter_of world_of main thread_started probe_calls].
    + rewrite run_call_trace, !count_app, H1, H2, H3. cbn. auto 10.
    + change (run start_janus_ws w) with (step CallStartJanusWs w).
      destruct (Hother CallStartJanusWs ltac:(discriminate)) as (K1 & K2 & K3).
      auto 10.
    + cbn. auto 10.
  - assert (Hb : forall b, b <> SupervisorStep ->
              let s' := {| world_of := step b (world_of s);
                           starter_of := starter_of s |} in
              thread_started (starter_of s') = false /\
              probe_calls (starter_of s') = [] /\
              (main (starter_of s') = AtStart \/ main (starter_of s') = AtConnect \/
               main (starter_of s') = StartReturned) /\
              count is_setup (trace (world_of s')) = 0 /\
              count is_launch (trace (world_of s')) = 0 /\
              count is_alert (trace (world_of s')) = 0).
    { intros b Hb. destruct (Hother b Hb) as (K1 & K2 & K3). cbn. auto 10. }
    destruct a; cbn [sys_step]; rewrite ?Hs;
      try (apply Hb; discriminate); auto 10.
Qed.

(** X18.  With an external gateway, [start] only warns and connects: it
    returns at its second step with a link opened, the supervisor thread
    never exists, so [setup.sh] and [run.sh] are never run and no alert is
    ever enqueued, and the port is never probed. *)
Theorem external_gateway_is_never_supervised schedule :
  external_gateway = true ->
  thread_started (starter_of (sys_exec schedule boot)) = false /\
  probe_calls (starter_of (sys_exec schedule boot)) = [] /\
  count is_setup (trace (world_of (sys_exec schedule boot))) = 0 /\
  count is_launch (trace (world_of (sys_exec schedule boot))) = 0 /\
  count is_alert (trace (world_of (sys_exec schedule boot))) = 0 /\
  (2 <= main_steps schedule ->
   main (starter_of (sys_exec schedule boot)) = StartReturned /\
   1 <= count is_connect (trace (world_of (sys_exec schedule boot)))).
Proof.
  intros He.
  assert (Hinv : forall s,
            thread_started (starter_of s) = false /\
            probe_calls (starter_of s) = [] /\
            (main (starter_of s) = AtStart \/ main (starter_of s) = AtConnect \/
             main (starter_of s) = StartReturned) /\
            count is_setup (trace (world_of s)) = 0 /\
            count is_launch (trace (world_of s)) = 0 /\
            count is_alert (trace (world_of s)) = 0 ->
            thread_started (starter_of (sys_exec schedule s)) = false /\
            probe_calls (starter_of (sys_exec schedule s)) = [] /\
            (main (starter_of (sys_exec schedule s)) = AtStart \/
             main (starter_of (sys_exec schedule s)) = AtConnect \/
             main (starter_of (sys_exec schedule s)) = StartReturned) /\
            count is_setup (trace (world_of (sys_exec schedule s))) = 0 /\
            count is_launch (trace (world_of (sys_exec schedule s))) = 0 /\
            count is_alert (trace (world_of (sys_exec schedule s))) = 0).
  { induction schedule as [|a schedule IH]; intros s Hs; [exact Hs|].
    rewrite sys_exec_cons. apply IH, external_step; assumption. }
  destruct (Hinv boot) as (K1 & K2 & _ & K4 & K5 & K6).
  { cbn. auto 10. }
  repeat (split; [assumption|]).
  intros Hn.
  assert (Hm : main (starter_of (sys_exec schedule boot)) = StartReturned).
  { rewrite sys_exec_starter.
    replace (main_steps schedule) with ((main_steps schedule - 2) + 2) by lia.
    rewrite iter_add, !Nat.iter_succ. cbn [Nat.iter nat_rect].
    assert (E : starter_step (starter_step (starter_of boot)) =
                {| main := StartReturned; thread_started := false;
                   probe_calls := [] |}).
    { unfold starter_step at 2. cbn. rewrite He. reflexivity. }
    rewrite E, starter_done by reflexivity. reflexivity. }
  split; [exact Hm|].
  apply returned_start_has_opened_a_link; [discriminate | exact Hm].
Qed.

End StartLife.

Lemma start_gives_up_after_ten_probes_witness :
  main (starter_of (@sys_exec Sample.crashing Boot.never_up
                      (repeat MainStep 11) boot))
  = StartRaised OSError.
Proof.
  destruct (@start_gives_up_after_ten_probes Sample.crashing Boot.never_up
              (repeat MainStep 11) eq_refl (fun k _ => eq_refl))
    as (_ & _ & H).
  rewrite (H (le_n 11)). reflexivity.
Defined.

Lemma start_connects_once_the_gateway_answers_witness :
  connects_made (starter_of (@sys_exec Sample.crashing Boot.up_at_third
                               (repeat MainStep 5) boot)) = 3 /\
  1 <= count is_connect
         (trace (world_of (@sys_exec Sample.crashing Boot.up_at_third
                             (repeat MainStep 5) boot))).
Proof.
  assert (Hf : forall j, 1 <= j < 3 ->
                 @connect_ok Boot.up_at_third j = false).
  { intros j Hj. unfold Boot.up_at_third, connect_ok.
    apply Nat.leb_gt. apply Hj. }
  assert (Hk : 1 <= 3 <= 10) by lia.
  destruct (@start_connects_once_the_gateway_answers Sample.crashing
              Boot.up_at_third (repeat MainStep 5) 3 eq_refl Hk
              eq_refl Hf (le_n 5))
    as (_ & H1 & _ & H2).
  split; [exact H1 | exact H2].
Defined.

Lemma external_gateway_is_never_supervised_witness :
  count is_launch
    (trace (world_of (@sys_exec Sample.crashing Boot.external
                        [MainStep; Other SupervisorStep; MainStep;
                         Other SupervisorStep] boot))) = 0.
Proof.
  apply (@external_gateway_is_never_supervised Sample.crashing Boot.external
           [MainStep; Other SupervisorStep; MainStep; Other SupervisorStep]
           eq_refl).
Defined.
